(** * C-CRED backend: the in-memory REST server of [server.js]

    The development embeds the request handlers of [server.js] as pure
    functions over an explicit [store] (the six module-level arrays) and
    proves the properties of the verification / credit workflow and of the
    marketplace that the specification states.

    Conventions:
    - a JavaScript value is a [value]; numbers are IEEE-754 binary64
      ([PrimFloat.float]), so arithmetic and comparisons are the engine's;
    - objects whose shape is open (a project or a stakeholder, which
      [PUT] merges with the request body; a request body) are finite maps
      from property names to values; objects built by one literal and never
      merged with foreign properties are records;
    - what a handler reads from its host (uuid, clock) comes in an [env];
      the engine's string/number conversions come in an [engine]. *)

From Stdlib Require Import Floats.
From stdpp Require Import gmap strings list fin_maps pretty.

Set Warnings "-register-all".

(* ===================================================================== *)
(** ** JavaScript values and the coercions the handlers rely on *)
(* ===================================================================== *)

Inductive value :=
| VUndefined
| VNull
| VBool (b : bool)
| VNum (n : float)
| VStr (s : string)
| VArr (xs : list value)
| VObj (fields : gmap string value).

(** An object with an open set of properties. *)
Abbreviation obj := (gmap string value).

(** [o.k]: reading a property that is not there gives [undefined]. *)
Definition field (o : obj) (k : string) : value := default VUndefined (o !! k).

(** [{...a, ...b}]: the properties of [b] override those of [a]. *)
Definition spread (a b : obj) : obj := b ∪ a.

(** ToBoolean. *)
Definition truthy (v : value) : bool :=
  match v with
  | VUndefined | VNull => false
  | VBool b => b
  | VNum n => negb (PrimFloat.eqb n 0%float || PrimFloat.is_nan n)
  | VStr s => negb (String.eqb s "")
  | VArr _ | VObj _ => true
  end.

(** [a || b]. *)
Definition or_else (a b : value) : value := if truthy a then a else b.

(** [a === b].  Two objects or arrays are equal when they are the same
    reference; every comparison in [server.js] is between a value held by
    the store and one parsed from the current request (or from another
    request), which never share a reference, so the last case is [false]. *)
Definition strict_eq (a b : value) : bool :=
  match a, b with
  | VUndefined, VUndefined => true
  | VNull, VNull => true
  | VBool x, VBool y => Bool.eqb x y
  | VNum x, VNum y => PrimFloat.eqb x y
  | VStr x, VStr y => String.eqb x y
  | _, _ => false
  end.

(** The engine's conversions between strings and numbers, and its JSON
    parser ([None] when [JSON.parse] throws). *)
Record engine := {
  number_to_string : float -> string;
  string_to_number : string -> float;
  parse_float : string -> float;
  json_parse : string -> option value
}.

Section Coercions.
Variable E : engine.

(** ToString, as used by template literals. *)
Fixpoint to_string (v : value) : string :=
  match v with
  | VUndefined => "undefined"
  | VNull => "null"
  | VBool true => "true"
  | VBool false => "false"
  | VNum n => number_to_string E n
  | VStr s => s
  | VArr xs =>
      (fix join (l : list value) : string :=
         match l with
         | [] => ""
         | x :: r =>
             let sx := match x with
                       | VUndefined | VNull => ""
                       | _ => to_string x
                       end in
             match r with
             | [] => sx
             | _ :: _ => sx +:+ "," +:+ join r
             end
         end) xs
  | VObj _ => "[object Object]"
  end.

(** ToNumber. *)
Definition to_number (v : value) : float :=
  match v with
  | VUndefined => nan
  | VNull => 0%float
  | VBool true => 1%float
  | VBool false => 0%float
  | VNum n => n
  | VStr s => string_to_number E s
  | VArr _ | VObj _ => string_to_number E (to_string v)
  end.

(** [v <= n] for a number [n]: both sides go through ToNumber, and the
    comparison is false when either is NaN. *)
Definition js_le (v : value) (n : float) : bool :=
  PrimFloat.leb (to_number v) n.

(** [Number.parseFloat(v)]: the argument is converted to a string first. *)
Definition parseFloat (v : value) : float := parse_float E (to_string v).
End Coercions.

(** [Math.min(...l)] and [Math.max(...l)] on numbers: NaN is contagious,
    and [-0] is below [+0]. *)
Definition is_neg_zero (x : float) : bool :=
  match PrimFloat.classify x with NZero => true | _ => false end.
Definition is_pos_zero (x : float) : bool :=
  match PrimFloat.classify x with PZero => true | _ => false end.

Fixpoint min_from (lowest : float) (l : list float) : float :=
  match l with
  | [] => lowest
  | x :: r =>
      if PrimFloat.is_nan x then nan
      else if is_neg_zero x && is_pos_zero lowest then min_from x r
      else if PrimFloat.ltb x lowest then min_from x r
      else min_from lowest r
  end.
Definition math_min (l : list float) : float := min_from infinity l.

Fixpoint max_from (highest : float) (l : list float) : float :=
  match l with
  | [] => highest
  | x :: r =>
      if PrimFloat.is_nan x then nan
      else if is_pos_zero x && is_neg_zero highest then max_from x r
      else if PrimFloat.ltb highest x then max_from x r
      else max_from highest r
  end.
Definition math_max (l : list float) : float := max_from neg_infinity l.

(** An array length as a number. *)
Definition float_of_nat (n : nat) : float :=
  PrimFloat.of_uint63 (Uint63.of_Z (Z.of_nat n)).

(* ===================================================================== *)
(** ** The data held by the six arrays *)
(* ===================================================================== *)

(** One element of [req.files], as [multer] hands it over, and the entry
    an upload keeps of it. *)
Record multer_file := {
  originalname : string;
  mimetype : string;
  size : float;
  path : string
}.

Record file_entry := {
  file_name : string;
  file_type : string;
  file_size : float;
  file_path : string
}.

Module Upload.
Record t := {
  id : string;
  projectId : value;
  dataType : value;
  files : list file_entry;
  metadata : value;
  status : string;
  createdAt : string
}.

(** [upload.status = s], in place. *)
Definition set_status (s : string) (u : t) : t :=
  {| id := id u; projectId := projectId u; dataType := dataType u;
     files := files u; metadata := metadata u; status := s;
     createdAt := createdAt u |}.
End Upload.

Module Submission.
(** The properties a submission can carry: those of the literal in
    [POST /data/uploads/:id/verify] and those that approve, reject and
    request-more add by spreading; a property that was never set reads
    [undefined]. *)
Record t := {
  id : string;
  uploadId : string;
  projectId : value;
  status : string;
  submittedAt : string;
  dataType : value;
  metadata : value;
  creditsGenerated : value;
  comments : value;
  qualityScore : value;
  approvedAt : value;
  reason : value;
  requiredActions : value;
  rejectedAt : value;
  requestedData : value;
  requestedAt : value
}.
End Submission.

Module Credit.
Record t := {
  id : string;
  projectId : value;
  verificationId : value;
  creditsAmount : value;
  methodology : value;
  vintage : value;
  description : value;
  status : string;
  createdAt : string;
  serialNumber : string
}.
End Credit.

Module Listing.
Record t := {
  id : string;
  creditId : string;
  price : float;
  minimumQuantity : value;
  availableQuantity : value;
  expiryDate : value;
  description : value;
  status : string;
  listedAt : string
}.
End Listing.

(** The in-memory data storage. *)
Record store := {
  projects : list obj;
  dataUploads : list Upload.t;
  verificationSubmissions : list Submission.t;
  carbonCredits : list Credit.t;
  stakeholders : list obj;
  marketplaceListings : list Listing.t
}.

Definition empty_store : store :=
  {| projects := []; dataUploads := []; verificationSubmissions := [];
     carbonCredits := []; stakeholders := []; marketplaceListings := [] |}.

Definition with_projects (l : list obj) (st : store) : store :=
  {| projects := l; dataUploads := dataUploads st;
     verificationSubmissions := verificationSubmissions st;
     carbonCredits := carbonCredits st; stakeholders := stakeholders st;
     marketplaceListings := marketplaceListings st |}.
Definition with_dataUploads (l : list Upload.t) (st : store) : store :=
  {| projects := projects st; dataUploads := l;
     verificationSubmissions := verificationSubmissions st;
     carbonCredits := carbonCredits st; stakeholders := stakeholders st;
     marketplaceListings := marketplaceListings st |}.
Definition with_verificationSubmissions (l : list Submission.t) (st : store) : store :=
  {| projects := projects st; dataUploads := dataUploads st;
     verificationSubmissions := l;
     carbonCredits := carbonCredits st; stakeholders := stakeholders st;
     marketplaceListings := marketplaceListings st |}.
Definition with_carbonCredits (l : list Credit.t) (st : store) : store :=
  {| projects := projects st; dataUploads := dataUploads st;
     verificationSubmissions := verificationSubmissions st;
     carbonCredits := l; stakeholders := stakeholders st;
     marketplaceListings := marketplaceListings st |}.
Definition with_stakeholders (l : list obj) (st : store) : store :=
  {| projects := projects st; dataUploads := dataUploads st;
     verificationSubmissions := verificationSubmissions st;
     carbonCredits := carbonCredits st; stakeholders := l;
     marketplaceListings := marketplaceListings st |}.
Definition with_marketplaceListings (l : list Listing.t) (st : store) : store :=
  {| projects := projects st; dataUploads := dataUploads st;
     verificationSubmissions := verificationSubmissions st;
     carbonCredits := carbonCredits st; stakeholders := stakeholders st;
     marketplaceListings := l |}.

(** [item.id], whatever the item. *)
Class HasId (A : Type) := item_id : A -> value.
#[global] Instance obj_id : HasId obj := fun o => field o "id".
#[global] Instance upload_id : HasId Upload.t := fun u => VStr (Upload.id u).
#[global] Instance submission_id : HasId Submission.t := fun s => VStr (Submission.id s).
#[global] Instance credit_id : HasId Credit.t := fun c => VStr (Credit.id c).
#[global] Instance listing_id : HasId Listing.t := fun l => VStr (Listing.id l).

(** [array.findIndex((x) => x.id === id)], with the element found; [None]
    stands for [-1]. *)
Definition findIndex {A} `{HasId A} (array : list A) (id : value) : option (nat * A) :=
  list_find (fun item => strict_eq (item_id item) id = true) array.

(** Helper function to find item by ID. *)
Definition findById {A} `{HasId A} (array : list A) (id : value) : option A :=
  snd <$> findIndex array id.

(* ===================================================================== *)
(** ** Requests, replies and the host *)
(* ===================================================================== *)

(** What one request reads from its host. *)
Record env := {
  uuidv4 : string;            (* uuidv4() *)
  isoString : nat -> string;  (* the k-th new Date().toISOString() *)
  fullYear : string;          (* new Date().getFullYear().toString() *)
  now : float                 (* Date.now() *)
}.

(** [`PRJ-${uuidv4().slice(0, 8)}`] and its siblings. *)
Definition fresh_id (prefix : string) (e : env) : string :=
  prefix +:+ String.substring 0 8 (uuidv4 e).

(** The three-bucket price histogram and the aggregates around it. *)
Record price_range := { low : nat; medium : nat; high : nat }.
Record price_stats := {
  averagePrice : float;
  minPrice : float;
  maxPrice : float;
  totalListings : nat;
  priceRange : price_range
}.

(** The [data] (or [message]) of a successful reply. *)
Inductive payload :=
| PMessage (m : string)
| PObject (o : obj)
| PUpload (u : Upload.t)
| PSubmission (s : Submission.t)
| PCredit (c : Credit.t)
| PListing (l : Listing.t)
| PListings (ls : list Listing.t) (total : nat)
| PStats (s : price_stats).

(** [{success: true, ...}] with its HTTP status, or
    [{success: false, error}] with its HTTP status. *)
Inductive reply :=
| Success (code : nat) (d : payload)
| Failure (code : nat) (error : string).

Definition is_success (r : reply) : bool :=
  match r with Success _ _ => true | Failure _ _ => false end.

(** The routes of [server.js] that write to the store, the two marketplace
    reads, and [Unrouted] for a request no route matches (it reaches the
    404 handler).  The remaining routes only read the store. *)
Inductive request :=
| PostProjects (body : obj)
| PutProject (id : string) (body : obj)
| DeleteProject (id : string)
| PostDataUpload (body : obj) (files : option (list multer_file))
| DeleteUpload (id : string)
| PostVerify (id : string)
| PostApprove (id : string) (body : obj)
| PostReject (id : string) (body : obj)
| PostRequestMore (id : string) (body : obj)
| PostCreditsGenerate (body : obj)
| PostStakeholders (body : obj)
| PutStakeholder (id : string) (body : obj)
| GetMarketplaceCredits (query : obj)
| PostListCredit (id : string) (body : obj)
| GetMarketplacePrices
| Unrouted.

(* ===================================================================== *)
(** ** The handlers *)
(* ===================================================================== *)

Section Handlers.
Variable E : engine.

(** *** Projects *)

Definition post_projects (e : env) (body : obj) (st : store) : store * reply :=
  let name := field body "name" in
  let category := field body "category" in
  let location := field body "location" in
  if negb (truthy name) || negb (truthy category) || negb (truthy location) then
    (st, Failure 400 "Name, category, and location are required")
  else
    let project : obj :=
      list_to_map
        [("id", VStr (fresh_id "PRJ-" e));
         ("name", name);
         ("category", category);
         ("location", location);
         ("startDate", field body "startDate");
         ("endDate", field body "endDate");
         ("stakeholders", or_else (field body "stakeholders") (VArr []));
         ("status", VStr "active");
         ("createdAt", VStr (isoString e 0));
         ("updatedAt", VStr (isoString e 1))] in
    (with_projects (projects st ++ [project]) st, Success 201 (PObject project)).

Definition put_project (e : env) (id : string) (body : obj) (st : store) : store * reply :=
  match findIndex (projects st) (VStr id) with
  | None => (st, Failure 404 "Project not found")
  | Some (projectIndex, old) =>
      let new := <["updatedAt" := VStr (isoString e 0)]> (spread old body) in
      (with_projects (<[projectIndex := new]> (projects st)) st,
       Success 200 (PObject new))
  end.

Definition delete_project (id : string) (st : store) : store * reply :=
  match findIndex (projects st) (VStr id) with
  | None => (st, Failure 404 "Project not found")
  | Some (projectIndex, _) =>
      (with_projects (delete projectIndex (projects st)) st,
       Success 200 (PMessage "Project deleted successfully"))
  end.

(** *** Data uploads *)

Definition file_of_multer (f : multer_file) : file_entry :=
  {| file_name := originalname f; file_type := mimetype f;
     file_size := size f; file_path := path f |}.

Definition post_data_upload (e : env) (body : obj)
    (req_files : option (list multer_file)) (st : store) : store * reply :=
  let projectId := field body "projectId" in
  let dataType := field body "dataType" in
  let metadata := field body "metadata" in
  if negb (truthy projectId) || negb (truthy dataType) then
    (st, Failure 400 "Project ID and data type are required")
  else
    match findById (projects st) projectId with
    | None => (st, Failure 404 "Project not found")
    | Some _ =>
        let parsed :=
          if truthy metadata then json_parse E (to_string E metadata)
          else Some (VObj ∅) in
        match parsed with
        | None => (st, Failure 500 "Internal server error")
        | Some md =>
            let upload :=
              {| Upload.id := fresh_id "UPL-" e;
                 Upload.projectId := projectId;
                 Upload.dataType := dataType;
                 Upload.files :=
                   match req_files with
                   | Some fs => map file_of_multer fs
                   | None => []
                   end;
                 Upload.metadata := md;
                 Upload.status := "uploaded";
                 Upload.createdAt := isoString e 0 |} in
            (with_dataUploads (dataUploads st ++ [upload]) st,
             Success 201 (PUpload upload))
        end
    end.

Definition delete_upload (id : string) (st : store) : store * reply :=
  match findIndex (dataUploads st) (VStr id) with
  | None => (st, Failure 404 "Upload not found")
  | Some (uploadIndex, _) =>
      (with_dataUploads (delete uploadIndex (dataUploads st)) st,
       Success 200 (PMessage "Upload deleted successfully"))
  end.

(** [POST /data/uploads/:id/verify].  [findById] hands back the first
    upload with that id, and the assignment to its [status] changes that
    element of the array. *)
Definition verify_upload (e : env) (id : string) (st : store) : store * reply :=
  match findIndex (dataUploads st) (VStr id) with
  | None => (st, Failure 404 "Upload not found")
  | Some (i, upload) =>
      let submission :=
        {| Submission.id := fresh_id "SUB-" e;
           Submission.uploadId := Upload.id upload;
           Submission.projectId := Upload.projectId upload;
           Submission.status := "pending";
           Submission.submittedAt := isoString e 0;
           Submission.dataType := Upload.dataType upload;
           Submission.metadata := Upload.metadata upload;
           Submission.creditsGenerated := VUndefined;
           Submission.comments := VUndefined;
           Submission.qualityScore := VUndefined;
           Submission.approvedAt := VUndefined;
           Submission.reason := VUndefined;
           Submission.requiredActions := VUndefined;
           Submission.rejectedAt := VUndefined;
           Submission.requestedData := VUndefined;
           Submission.requestedAt := VUndefined |} in
      let st1 :=
        with_verificationSubmissions (verificationSubmissions st ++ [submission]) st in
      (with_dataUploads
         (<[i := Upload.set_status "submitted_for_verification" upload]> (dataUploads st))
         st1,
       Success 200 (PSubmission submission))
  end.

(** *** Verification *)

(** [{...old, status: "approved", creditsGenerated: creditsGenerated || 0,
      comments, qualityScore, approvedAt}] *)
Definition approved (e : env) (body : obj) (old : Submission.t) : Submission.t :=
  {| Submission.id := Submission.id old;
     Submission.uploadId := Submission.uploadId old;
     Submission.projectId := Submission.projectId old;
     Submission.status := "approved";
     Submission.submittedAt := Submission.submittedAt old;
     Submission.dataType := Submission.dataType old;
     Submission.metadata := Submission.metadata old;
     Submission.creditsGenerated :=
       or_else (field body "creditsGenerated") (VNum 0%float);
     Submission.comments := field body "comments";
     Submission.qualityScore := field body "qualityScore";
     Submission.approvedAt := VStr (isoString e 0);
     Submission.reason := Submission.reason old;
     Submission.requiredActions := Submission.requiredActions old;
     Submission.rejectedAt := Submission.rejectedAt old;
     Submission.requestedData := Submission.requestedData old;
     Submission.requestedAt := Submission.requestedAt old |}.

Definition approve_submission (e : env) (id : string) (body : obj) (st : store)
    : store * reply :=
  match findIndex (verificationSubmissions st) (VStr id) with
  | None => (st, Failure 404 "Submission not found")
  | Some (submissionIndex, old) =>
      let new := approved e body old in
      (with_verificationSubmissions
         (<[submissionIndex := new]> (verificationSubmissions st)) st,
       Success 200 (PSubmission new))
  end.

(** [{...old, status: "rejected", reason, comments,
      requiredActions: requiredActions || [], rejectedAt}] *)
Definition rejected (e : env) (body : obj) (old : Submission.t) : Submission.t :=
  {| Submission.id := Submission.id old;
     Submission.uploadId := Submission.uploadId old;
     Submission.projectId := Submission.projectId old;
     Submission.status := "rejected";
     Submission.submittedAt := Submission.submittedAt old;
     Submission.dataType := Submission.dataType old;
     Submission.metadata := Submission.metadata old;
     Submission.creditsGenerated := Submission.creditsGenerated old;
     Submission.comments := field body "comments";
     Submission.qualityScore := Submission.qualityScore old;
     Submission.approvedAt := Submission.approvedAt old;
     Submission.reason := field body "reason";
     Submission.requiredActions :=
       or_else (field body "requiredActions") (VArr []);
     Submission.rejectedAt := VStr (isoString e 0);
     Submission.requestedData := Submission.requestedData old;
     Submission.requestedAt := Submission.requestedAt old |}.

Definition reject_submission (e : env) (id : string) (body : obj) (st : store)
    : store * reply :=
  match findIndex (verificationSubmissions st) (VStr id) with
  | None => (st, Failure 404 "Submission not found")
  | Some (submissionIndex, old) =>
      let new := rejected e body old in
      (with_verificationSubmissions
         (<[submissionIndex := new]> (verificationSubmissions st)) st,
       Success 200 (PSubmission new))
  end.

(** [{...old, status: "more_data_requested",
      requestedData: requestedData || [], comments, requestedAt}] *)
Definition more_requested (e : env) (body : obj) (old : Submission.t) : Submission.t :=
  {| Submission.id := Submission.id old;
     Submission.uploadId := Submission.uploadId old;
     Submission.projectId := Submission.projectId old;
     Submission.status := "more_data_requested";
     Submission.submittedAt := Submission.submittedAt old;
     Submission.dataType := Submission.dataType old;
     Submission.metadata := Submission.metadata old;
     Submission.creditsGenerated := Submission.creditsGenerated old;
     Submission.comments := field body "comments";
     Submission.qualityScore := Submission.qualityScore old;
     Submission.approvedAt := Submission.approvedAt old;
     Submission.reason := Submission.reason old;
     Submission.requiredActions := Submission.requiredActions old;
     Submission.rejectedAt := Submission.rejectedAt old;
     Submission.requestedData :=
       or_else (field body "requestedData") (VArr []);
     Submission.requestedAt := VStr (isoString e 0) |}.

Definition request_more (e : env) (id : string) (body : obj) (st : store)
    : store * reply :=
  match findIndex (verificationSubmissions st) (VStr id) with
  | None => (st, Failure 404 "Submission not found")
  | Some (submissionIndex, old) =>
      let new := more_requested e body old in
      (with_verificationSubmissions
         (<[submissionIndex := new]> (verificationSubmissions st)) st,
       Success 200 (PSubmission new))
  end.

(** *** Carbon credits *)

(** [POST /credits/generate]. *)
Definition generate_credit (e : env) (body : obj) (st : store) : store * reply :=
  let projectId := field body "projectId" in
  let verificationId := field body "verificationId" in
  let creditsAmount := field body "creditsAmount" in
  let methodology := field body "methodology" in
  let vintage := field body "vintage" in
  let description := field body "description" in
  if negb (truthy projectId) || negb (truthy verificationId)
     || negb (truthy creditsAmount) then
    (st, Failure 400 "Project ID, verification ID, and credits amount are required")
  else
    match findById (projects st) projectId with
    | None => (st, Failure 404 "Project not found")
    | Some _ =>
        let rejected_verification :=
          match findById (verificationSubmissions st) verificationId with
          | None => true
          | Some verification =>
              negb (String.eqb (Submission.status verification) "approved")
          end in
        if rejected_verification then
          (st, Failure 400 "Valid approved verification required")
        else
          let credit :=
            {| Credit.id := fresh_id "CRD-" e;
               Credit.projectId := projectId;
               Credit.verificationId := verificationId;
               Credit.creditsAmount := creditsAmount;
               Credit.methodology := or_else methodology (VStr "VM0033");
               Credit.vintage := or_else vintage (VStr (fullYear e));
               Credit.description := description;
               Credit.status := "active";
               Credit.createdAt := isoString e 0;
               Credit.serialNumber :=
                 to_string E projectId +:+ "-" +:+ to_string E vintage +:+ "-"
                 +:+ number_to_string E (now e) |} in
          (with_carbonCredits (carbonCredits st ++ [credit]) st,
           Success 201 (PCredit credit))
    end.

(** *** Stakeholders *)

Definition post_stakeholders (e : env) (body : obj) (st : store) : store * reply :=
  let name := field body "name" in
  let category := field body "category" in
  if negb (truthy name) || negb (truthy category) then
    (st, Failure 400 "Name and category are required")
  else
    let stakeholder : obj :=
      list_to_map
        [("id", VStr (fresh_id "STK-" e));
         ("name", name);
         ("category", category);
         ("contact", field body "contact");
         ("projects", or_else (field body "projects") (VArr []));
         ("status", VStr "active");
         ("createdAt", VStr (isoString e 0))] in
    (with_stakeholders (stakeholders st ++ [stakeholder]) st,
     Success 201 (PObject stakeholder)).

Definition put_stakeholder (e : env) (id : string) (body : obj) (st : store)
    : store * reply :=
  match findIndex (stakeholders st) (VStr id) with
  | None => (st, Failure 404 "Stakeholder not found")
  | Some (stakeholderIndex, old) =>
      let new := <["updatedAt" := VStr (isoString e 0)]> (spread old body) in
      (with_stakeholders (<[stakeholderIndex := new]> (stakeholders st)) st,
       Success 200 (PObject new))
  end.

(** *** Marketplace *)

Definition is_active (l : Listing.t) : bool := String.eqb (Listing.status l) "active".

(** The category filter of [GET /marketplace/credits]:
    [project?.category === category] after the two lookups. *)
Definition in_category (st : store) (category : value) (listing : Listing.t) : bool :=
  let credit := findById (carbonCredits st) (VStr (Listing.creditId listing)) in
  let project :=
    match credit with
    | Some c => findById (projects st) (Credit.projectId c)
    | None => None
    end in
  strict_eq (match project with Some p => field p "category" | None => VUndefined end)
            category.

(** [GET /marketplace/credits]. *)
Definition browse_credits (query : obj) (st : store) : store * reply :=
  let category := field query "category" in
  let minPrice := field query "minPrice" in
  let maxPrice := field query "maxPrice" in
  let filteredListings := filter (fun l => is_active l = true) (marketplaceListings st) in
  let filteredListings :=
    if truthy category then
      filter (fun l => in_category st category l = true) filteredListings
    else filteredListings in
  let filteredListings :=
    if truthy minPrice then
      filter (fun l => PrimFloat.leb (parseFloat E minPrice) (Listing.price l) = true)
             filteredListings
    else filteredListings in
  let filteredListings :=
    if truthy maxPrice then
      filter (fun l => PrimFloat.leb (Listing.price l) (parseFloat E maxPrice) = true)
             filteredListings
    else filteredListings in
  (st, Success 200 (PListings filteredListings (length filteredListings))).

(** [POST /marketplace/credits/:id/list]. *)
Definition list_credit (e : env) (id : string) (body : obj) (st : store)
    : store * reply :=
  let price := field body "price" in
  match findById (carbonCredits st) (VStr id) with
  | None => (st, Failure 404 "Credit not found")
  | Some credit =>
      if negb (truthy price) || js_le E price 0%float then
        (st, Failure 400 "Valid price is required")
      else
        let listing :=
          {| Listing.id := fresh_id "LST-" e;
             Listing.creditId := Credit.id credit;
             Listing.price := parseFloat E price;
             Listing.minimumQuantity :=
               or_else (field body "minimumQuantity") (VNum 1%float);
             Listing.availableQuantity := Credit.creditsAmount credit;
             Listing.expiryDate := field body "expiryDate";
             Listing.description := field body "description";
             Listing.status := "active";
             Listing.listedAt := isoString e 0 |} in
        (with_marketplaceListings (marketplaceListings st ++ [listing]) st,
         Success 201 (PListing listing))
  end.

(** [GET /marketplace/prices]. *)
Definition priceStats (st : store) : price_stats :=
  let activeListing := filter (fun l => is_active l = true) (marketplaceListings st) in
  let prices := map Listing.price activeListing in
  {| averagePrice :=
       if (0 <? length prices)%nat then
         PrimFloat.div (fold_left PrimFloat.add prices 0%float)
                       (float_of_nat (length prices))
       else 0%float;
     minPrice := if (0 <? length prices)%nat then math_min prices else 0%float;
     maxPrice := if (0 <? length prices)%nat then math_max prices else 0%float;
     totalListings := length activeListing;
     priceRange :=
       {| low := length (filter (fun p => PrimFloat.ltb p 10%float = true) prices);
          medium :=
            length (filter (fun p => PrimFloat.leb 10%float p
                                     && PrimFloat.ltb p 20%float = true) prices);
          high := length (filter (fun p => PrimFloat.leb 20%float p = true) prices) |} |}.

Definition marketplace_prices (st : store) : store * reply :=
  (st, Success 200 (PStats (priceStats st))).

(** The 404 handler. *)
Definition not_found (st : store) : store * reply :=
  (st, Failure 404 "Endpoint not found").

(** *** The server as a transition system *)

Definition handle (e : env) (r : request) (st : store) : store * reply :=
  match r with
  | PostProjects body => post_projects e body st
  | PutProject id body => put_project e id body st
  | DeleteProject id => delete_project id st
  | PostDataUpload body fs => post_data_upload e body fs st
  | DeleteUpload id => delete_upload id st
  | PostVerify id => verify_upload e id st
  | PostApprove id body => approve_submission e id body st
  | PostReject id body => reject_submission e id body st
  | PostRequestMore id body => request_more e id body st
  | PostCreditsGenerate body => generate_credit e body st
  | PostStakeholders body => post_stakeholders e body st
  | PutStakeholder id body => put_stakeholder e id body st
  | GetMarketplaceCredits query => browse_credits query st
  | PostListCredit id body => list_credit e id body st
  | GetMarketplacePrices => marketplace_prices st
  | Unrouted => not_found st
  end.

(** The store after serving a sequence of requests, one at a time. *)
Definition run (trace : list (env * request)) (st : store) : store :=
  fold_left (fun s er => fst (handle (fst er) (snd er) s)) trace st.

(** A store the server can be in: the arrays start empty. *)
Definition reachable (st : store) : Prop :=
  exists trace, run trace empty_store = st.
End Handlers.

(* ===================================================================== *)
(** ** Vocabulary of the specification *)
(* ===================================================================== *)

(** The entity types, and the ids a store holds of each. *)
Inductive entity :=
| Project | DataUpload | VerificationSubmission | CarbonCredit | Stakeholder
| MarketplaceListing.

Definition ids_of (k : entity) (st : store) : list value :=
  match k with
  | Project => map item_id (projects st)
  | DataUpload => map item_id (dataUploads st)
  | VerificationSubmission => map item_id (verificationSubmissions st)
  | CarbonCredit => map item_id (carbonCredits st)
  | Stakeholder => map item_id (stakeholders st)
  | MarketplaceListing => map item_id (marketplaceListings st)
  end.

(** The number of records of each collection. *)
Definition record_count (k : entity) (st : store) : nat := length (ids_of k st).

(** A DELETE request for an entity.  [server.js] registers [app.delete]
    for [/projects/:id] and [/data/uploads/:id] only; a DELETE on any other
    path matches no route. *)
Definition delete_request (k : entity) (id : string) : request :=
  match k with
  | Project => DeleteProject id
  | DataUpload => DeleteUpload id
  | _ => Unrouted
  end.


(** The project a listing belongs to, through its credit, has category [c]. *)
Definition project_category_is (st : store) (c : string) (l : Listing.t) : Prop :=
  exists credit project,
    findById (carbonCredits st) (VStr (Listing.creditId l)) = Some credit
    /\ findById (projects st) (Credit.projectId credit) = Some project
    /\ field project "category" = VStr c.

(** The prices of the listings whose status is "active", in store order. *)
Definition active_prices (st : store) : list float :=
  map Listing.price (filter (fun l => Listing.status l = "active") (marketplaceListings st)).

Definition is_string (c : string) (v : value) : {v = VStr c} + {v <> VStr c}.
Proof.
  destruct v as [| | | |s| |]; try (right; discriminate).
  destruct (decide (s = c)) as [->|Hne]; [left; reflexivity | right; congruence].
Defined.

#[global] Instance project_category_is_dec (st : store) (c : string) (l : Listing.t) :
  Decision (project_category_is st c l).
Proof.
  unfold project_category_is.
  destruct (findById (carbonCredits st) (VStr (Listing.creditId l))) as [credit|] eqn:Hc;
    [|right; intros (? & ? & [=] & _)].
  destruct (findById (projects st) (Credit.projectId credit)) as [project|] eqn:Hp;
    [|right; intros (? & ? & [= <-] & Hp' & _); rewrite Hp in Hp'; discriminate].
  destruct (is_string c (field project "category")) as [Hcat|Hcat].
  - left. exists credit, project. auto.
  - right. intros (? & ? & [= <-] & Hp' & ?). rewrite Hp in Hp'.
    injection Hp' as <-. contradiction.
Defined.

(* ===================================================================== *)
(** ** An engine and a scenario to run the handlers on *)
(* ===================================================================== *)

(** The integer a number is, when it is one. *)
Definition integer_of (x : float) : option Z :=
  match Prim2SF x with
  | S754_zero _ => Some 0%Z
  | S754_finite s m e =>
      let magnitude :=
        if (0 <=? e)%Z then Some (Z.pos m * 2 ^ e)%Z
        else if (Z.pos m mod 2 ^ (- e) =? 0)%Z then Some (Z.pos m / 2 ^ (- e))%Z
        else None in
      (fun z => if s then (- z)%Z else z) <$> magnitude
  | _ => None
  end.

(** The number a string of decimal digits writes. *)
Fixpoint digits_value (acc : N) (s : string) : option N :=
  match s with
  | EmptyString => Some acc
  | String c r =>
      let d := Ascii.N_of_ascii c in
      if (48 <=? d)%N && (d <=? 57)%N then digits_value (10 * acc + (d - 48))%N r
      else None
  end.

Definition number_of_digits (s : string) : float :=
  match digits_value 0 s with
  | Some n =>
      if (n <? 2 ^ 53)%N then PrimFloat.of_uint63 (Uint63.of_Z (Z.of_N n)) else nan
  | None => nan
  end.

(** An engine to run examples with.  It converts what the examples below
    convert, and these as any engine does: NaN and the infinities print by
    name and an integral number below 2^53 in decimal; a string of decimal
    digits reads as the integer it writes, if that is below 2^53, the empty
    string as 0 for ToNumber and as NaN for [parseFloat], and a text that
    writes no number from its first character on, such as "abc" or
    "cheap", as NaN; [JSON.parse] reads the three literal names and rejects
    "[object Object]".  Its answers on other inputs (fractions, signs,
    exponents, other JSON texts) are not an engine's and no example asks
    for them.  No theorem depends on this engine; each is stated for every
    engine. *)
Definition integer_engine : engine :=
  {| number_to_string := fun x =>
       match Prim2SF x with
       | S754_nan => "NaN"
       | S754_infinity false => "Infinity"
       | S754_infinity true => "-Infinity"
       | _ =>
           match integer_of x with
           | Some z => if (Z.abs z <? 2 ^ 53)%Z then pretty z else "NaN"
           | None => "NaN"
           end
       end;
     string_to_number := fun s =>
       if String.eqb s "" then 0%float else number_of_digits s;
     parse_float := fun s =>
       if String.eqb s "" then nan else number_of_digits s;
     json_parse := fun s =>
       if String.eqb s "null" then Some VNull
       else if String.eqb s "true" then Some (VBool true)
       else if String.eqb s "false" then Some (VBool false)
       else None |}.

(** A host whose uuid is [u] and whose clock reads [t] milliseconds. *)
Definition host (u : string) (t : float) : env :=
  {| uuidv4 := u;
     isoString := fun _ => "2023-11-14T22:13:20.000Z";
     fullYear := "2023";
     now := t |}.

Definition mangrove_project : obj :=
  list_to_map [("name", VStr "Coastal Mangrove Restoration");
               ("category", VStr "wetland_restoration");
               ("location", VStr "Krishna")].

Definition drone_upload : obj :=
  list_to_map [("projectId", VStr "PRJ-0a0a0a0a"); ("dataType", VStr "drone_imagery")].

Definition approval : obj :=
  list_to_map [("creditsGenerated", VNum 1000%float); ("qualityScore", VNum 90%float)].

Definition credit_request (amount : value) : obj :=
  list_to_map [("projectId", VStr "PRJ-0a0a0a0a");
               ("verificationId", VStr "SUB-0c0c0c0c");
               ("creditsAmount", amount);
               ("vintage", VStr "2024")].

(** A project, an upload of it, its submission for verification. *)
Definition submitted_trace : list (env * request) :=
  [(host "0a0a0a0a-1111-4111-8111-111111111111" 1700000000000%float,
    PostProjects mangrove_project);
   (host "0b0b0b0b-2222-4222-8222-222222222222" 1700000000100%float,
    PostDataUpload drone_upload None);
   (host "0c0c0c0c-3333-4333-8333-333333333333" 1700000000200%float,
    PostVerify "UPL-0b0b0b0b")].

(** ... and its approval. *)
Definition approved_trace : list (env * request) :=
  submitted_trace ++
  [(host "0d0d0d0d-4444-4444-8444-444444444444" 1700000000300%float,
    PostApprove "SUB-0c0c0c0c" approval)].

Definition submitted_store : store := run integer_engine submitted_trace empty_store.
Definition approved_store : store := run integer_engine approved_trace empty_store.

(** Two requests for a credit of the same project and vintage, served
    within the same millisecond. *)
Definition same_millisecond_trace : list (env * request) :=
  approved_trace ++
  [(host "0e0e0e0e-5555-4555-8555-555555555555" 1700000000400%float,
    PostCreditsGenerate (credit_request (VNum 1000%float)));
   (host "0f0f0f0f-6666-4666-8666-666666666666" 1700000000400%float,
    PostCreditsGenerate (credit_request (VNum 1000%float)))].

(** A request for a credit of a negative amount. *)
Definition negative_credit : obj := credit_request (VNum (-5)%float).

(** ... or its rejection. *)
Definition rejection : obj :=
  list_to_map [("reason", VStr "Imagery does not cover the whole site")].

Definition rejected_trace : list (env * request) :=
  submitted_trace ++
  [(host "0d0d0d0d-4444-4444-8444-444444444444" 1700000000300%float,
    PostReject "SUB-0c0c0c0c" rejection)].

Definition rejected_store : store := run integer_engine rejected_trace empty_store.

(** A credit issued on the approved verification, then listed three times,
    at 5, 15 and 25. *)
Definition issued_trace : list (env * request) :=
  approved_trace ++
  [(host "0e0e0e0e-5555-4555-8555-555555555555" 1700000000400%float,
    PostCreditsGenerate (credit_request (VNum 1000%float)))].

Definition issued_store : store := run integer_engine issued_trace empty_store.

Definition offer (price : value) : obj := list_to_map [("price", price)].

Definition listed_trace : list (env * request) :=
  issued_trace ++
  [(host "1a1a1a1a-7777-4777-8777-777777777777" 1700000000500%float,
    PostListCredit "CRD-0e0e0e0e" (offer (VNum 5%float)));
   (host "1b1b1b1b-8888-4888-8888-888888888888" 1700000000600%float,
    PostListCredit "CRD-0e0e0e0e" (offer (VNum 15%float)));
   (host "1c1c1c1c-9999-4999-8999-999999999999" 1700000000700%float,
    PostListCredit "CRD-0e0e0e0e" (offer (VNum 25%float)))].

Definition listed_store : store := run integer_engine listed_trace empty_store.


(** The store with the project and its upload, before any submission. *)
Definition uploaded_store : store := run integer_engine (take 2 submitted_trace) empty_store.

(** A host for one more request. *)
Definition later : env := host "2a2a2a2a-aaaa-4aaa-8aaa-aaaaaaaaaaaa" 1700000000800%float.

(* ===================================================================== *)
(** ** The routes that only read the store *)
(* ===================================================================== *)

(** The reply of a read: [{success: true, data}] with its HTTP status, or
    [{success: false, error}] with its HTTP status. *)
Inductive answer (A : Type) : Type :=
| Found (code : nat) (data : A)
| Refused (code : nat) (error : string).
Arguments Found {A} code data.
Arguments Refused {A} code error.

(** [{success: true, data, total: data.length}]. *)
Record listed (A : Type) : Type := { items : list A; total : nat }.
Arguments items {A} _.
Arguments total {A} _.

Definition listing_of {A} (l : list A) : listed A := {| items := l; total := length l |}.

(** Supported data types. *)
Definition supportedDataTypes : list string :=
  ["field_survey"; "drone_imagery"; "sensor_data"; "satellite_data"; "soil_samples";
   "water_quality"; "biodiversity_survey"].

(** The reply of [POST /data/validate]: [{success, valid, errors}], where
    [success] and [valid] are the same boolean. *)
Record validation := { valid : bool; errors : list string }.

(** [GET /credits/portfolio]. *)
Record project_credits := {
  pc_projectId : value;
  pc_projectName : value;
  pc_credits : list Credit.t
}.

Record portfolio := {
  totalCredits : value;
  activeCredits : nat;
  creditsByProject : list project_credits
}.

(** [GET /credits/:id/certificate]. *)
Record certificate := {
  cert_creditId : string;
  cert_serialNumber : string;
  cert_projectName : value;
  cert_creditsAmount : value;
  cert_methodology : value;
  cert_vintage : value;
  cert_issuedDate : string;
  cert_certificateUrl : string
}.

(** The data of [POST /stakeholders/:id/connect] and of
    [POST /stakeholders/:id/message]. *)
Record connection := {
  conn_stakeholderId : value;
  conn_status : string;
  conn_requestedAt : string
}.

Record sent_message := {
  msg_stakeholderId : value;
  msg_subject : value;
  msg_message : value;
  msg_sentAt : string
}.

(** [v.k] for a property name that no prototype defines: only an object
    can carry it. *)
Definition property (v : value) (k : string) : value :=
  match v with
  | VObj o => field o k
  | _ => VUndefined
  end.

(** SameValueZero, the comparison of [Array.prototype.includes]: strict
    equality, except that NaN is the same as NaN. *)
Definition same_value_zero (a b : value) : bool :=
  match a, b with
  | VNum x, VNum y => PrimFloat.eqb x y || (PrimFloat.is_nan x && PrimFloat.is_nan y)
  | _, _ => strict_eq a b
  end.

(** [s.includes(t)] on strings: [t] occurs in [s]. *)
Fixpoint occurs_in (t s : string) : bool :=
  String.prefix t s
  || match s with
     | EmptyString => false
     | String _ r => occurs_in t r
     end.

Section Reads.
Variable E : engine.

(** ToPrimitive and the [+] operator. *)
Definition to_primitive (v : value) : value :=
  match v with
  | VArr _ | VObj _ => VStr (to_string E v)
  | _ => v
  end.

Definition js_add (a b : value) : value :=
  let pa := to_primitive a in
  let pb := to_primitive b in
  match pa, pb with
  | VStr _, _ | _, VStr _ => VStr (to_string E pa +:+ to_string E pb)
  | _, _ => VNum (PrimFloat.add (to_number E pa) (to_number E pb))
  end.

(** [receiver.includes(x)]; [None] when the call throws a TypeError
    (the receiver is [undefined] or [null], or has no such method). *)
Definition includes (receiver x : value) : option bool :=
  match receiver with
  | VArr xs => Some (existsb (fun y => same_value_zero y x) xs)
  | VStr s => Some (occurs_in (to_string E x) s)
  | _ => None
  end.

(** *** Projects *)

Definition get_projects (st : store) : answer (listed obj) :=
  Found 200 (listing_of (projects st)).

Definition get_project (id : string) (st : store) : answer obj :=
  match findById (projects st) (VStr id) with
  | None => Refused 404 "Project not found"
  | Some project => Found 200 project
  end.

(** *** Data uploads *)

Definition get_uploads (query : obj) (st : store) : answer (listed Upload.t) :=
  let projectId := field query "projectId" in
  let filteredUploads :=
    if truthy projectId then
      filter (fun upload => strict_eq (Upload.projectId upload) projectId = true)
             (dataUploads st)
    else dataUploads st in
  Found 200 (listing_of filteredUploads).

Definition get_upload (id : string) (st : store) : answer Upload.t :=
  match findById (dataUploads st) (VStr id) with
  | None => Refused 404 "Upload not found"
  | Some upload => Found 200 upload
  end.

Definition data_types : answer (list string) := Found 200 supportedDataTypes.

(** [supportedDataTypes.includes(dataType)]. *)
Definition isValidType (dataType : value) : bool :=
  match dataType with
  | VStr s => bool_decide (s ∈ supportedDataTypes)
  | _ => false
  end.

(** [POST /data/validate]. *)
Definition data_validate (body : obj) : answer validation :=
  let dataType := field body "dataType" in
  let metadata := field body "metadata" in
  if negb (truthy dataType) then Refused 400 "Data type is required"
  else
    let validationErrors :=
      (if isValidType dataType then [] else ["Invalid data type"])
      ++ (if truthy metadata then
            (if truthy (property metadata "collectionDate") then []
             else ["Collection date is required"])
            ++ (if truthy (property metadata "location") then []
                else ["Location is required"])
          else []) in
    Found 200 {| valid := bool_decide (length validationErrors = 0);
                 errors := validationErrors |}.

(** *** Verification *)

Definition get_submissions (query : obj) (st : store) : answer (listed Submission.t) :=
  let status := field query "status" in
  let filteredSubmissions :=
    if truthy status then
      filter (fun sub => strict_eq (VStr (Submission.status sub)) status = true)
             (verificationSubmissions st)
    else verificationSubmissions st in
  Found 200 (listing_of filteredSubmissions).

Definition get_submission (id : string) (st : store) : answer Submission.t :=
  match findById (verificationSubmissions st) (VStr id) with
  | None => Refused 404 "Submission not found"
  | Some submission => Found 200 submission
  end.

(** [GET /verification/history]. *)
Definition verification_history (query : obj) (st : store) : answer (listed Submission.t) :=
  let projectId := field query "projectId" in
  let history :=
    filter (fun sub => negb (String.eqb (Submission.status sub) "pending") = true)
           (verificationSubmissions st) in
  let history :=
    if truthy projectId then
      filter (fun sub => strict_eq (Submission.projectId sub) projectId = true) history
    else history in
  Found 200 (listing_of history).

(** *** Carbon credits *)

Definition get_credits (query : obj) (st : store) : answer (listed Credit.t) :=
  let projectId := field query "projectId" in
  let filteredCredits :=
    if truthy projectId then
      filter (fun credit => strict_eq (Credit.projectId credit) projectId = true)
             (carbonCredits st)
    else carbonCredits st in
  Found 200 (listing_of filteredCredits).

Definition credits_portfolio (st : store) : portfolio :=
  {| totalCredits :=
       fold_left (fun sum credit => js_add sum (Credit.creditsAmount credit))
                 (carbonCredits st) (VNum 0%float);
     activeCredits :=
       length (filter (fun c => String.eqb (Credit.status c) "active" = true)
                      (carbonCredits st));
     creditsByProject :=
       map (fun project =>
              {| pc_projectId := field project "id";
                 pc_projectName := field project "name";
                 pc_credits :=
                   filter (fun c => strict_eq (Credit.projectId c) (field project "id") = true)
                          (carbonCredits st) |})
           (projects st) |}.

(** [GET /credits/:id/certificate]; [protocol] is [req.protocol] and
    [req_host] is [req.get("host")], which is [undefined] without the
    header. *)
Definition credit_certificate (protocol : string) (req_host : option string)
    (id : string) (st : store) : answer certificate :=
  match findById (carbonCredits st) (VStr id) with
  | None => Refused 404 "Credit not found"
  | Some credit =>
      let project := findById (projects st) (Credit.projectId credit) in
      Found 200
        {| cert_creditId := Credit.id credit;
           cert_serialNumber := Credit.serialNumber credit;
           cert_projectName :=
             or_else (match project with
                      | Some p => field p "name"
                      | None => VUndefined
                      end)
                     (VStr "Unknown Project");
           cert_creditsAmount := Credit.creditsAmount credit;
           cert_methodology := Credit.methodology credit;
           cert_vintage := Credit.vintage credit;
           cert_issuedDate := Credit.createdAt credit;
           cert_certificateUrl :=
             protocol +:+ "://" +:+ default "undefined" req_host +:+ "/certificates/"
             +:+ Credit.id credit +:+ ".pdf" |}
  end.

(** *** Stakeholders *)

Definition get_stakeholders (query : obj) (st : store) : answer (listed obj) :=
  let category := field query "category" in
  let filteredStakeholders :=
    if truthy category then
      filter (fun s => strict_eq (field s "category") category = true) (stakeholders st)
    else stakeholders st in
  Found 200 (listing_of filteredStakeholders).

Definition get_stakeholder (id : string) (st : store) : answer obj :=
  match findById (stakeholders st) (VStr id) with
  | None => Refused 404 "Stakeholder not found"
  | Some stakeholder => Found 200 stakeholder
  end.

Definition stakeholder_connect (e : env) (id : string) (st : store) : answer connection :=
  match findById (stakeholders st) (VStr id) with
  | None => Refused 404 "Stakeholder not found"
  | Some stakeholder =>
      Found 200 {| conn_stakeholderId := field stakeholder "id";
                   conn_status := "connection_requested";
                   conn_requestedAt := isoString e 0 |}
  end.

Definition stakeholder_message (e : env) (id : string) (body : obj) (st : store)
    : answer sent_message :=
  let message := field body "message" in
  let subject := field body "subject" in
  match findById (stakeholders st) (VStr id) with
  | None => Refused 404 "Stakeholder not found"
  | Some stakeholder =>
      if negb (truthy message) then Refused 400 "Message is required"
      else
        Found 200 {| msg_stakeholderId := field stakeholder "id";
                     msg_subject := subject;
                     msg_message := message;
                     msg_sentAt := isoString e 0 |}
  end.

(** [projects.filter((project) => stakeholder.projects.includes(project.id))]:
    the callback runs once per project, in order, and the first call that
    throws ends the request in the error middleware. *)
Fixpoint filter_includes (receiver : value) (ps : list obj) : option (list obj) :=
  match ps with
  | [] => Some []
  | project :: rest =>
      match includes receiver (field project "id") with
      | None => None
      | Some keep =>
          match filter_includes receiver rest with
          | None => None
          | Some kept => Some (if keep then project :: kept else kept)
          end
      end
  end.

Definition stakeholder_projects (id : string) (st : store) : answer (listed obj) :=
  match findById (stakeholders st) (VStr id) with
  | None => Refused 404 "Stakeholder not found"
  | Some stakeholder =>
      match filter_includes (field stakeholder "projects") (projects st) with
      | None => Refused 500 "Internal server error"
      | Some stakeholderProjects => Found 200 (listing_of stakeholderProjects)
      end
  end.
End Reads.


(* ===================================================================== *)
(** ** Properties of a store *)
(* ===================================================================== *)

(** Every listing is "active", names a credit the store holds, and offers
    that credit's whole amount. *)
Definition listings_backed (st : store) : Prop :=
  forall l, l ∈ marketplaceListings st ->
    Listing.status l = "active"
    /\ exists credit,
         findById (carbonCredits st) (VStr (Listing.creditId l)) = Some credit
         /\ Listing.availableQuantity l = Credit.creditsAmount credit.

(** The statuses the handlers write. *)
Definition statuses_in_use (st : store) : Prop :=
  (forall u, u ∈ dataUploads st ->
     Upload.status u = "uploaded" \/ Upload.status u = "submitted_for_verification")
  /\ (forall s, s ∈ verificationSubmissions st ->
        Submission.status s = "pending" \/ Submission.status s = "approved"
        \/ Submission.status s = "rejected" \/ Submission.status s = "more_data_requested").

(** Every credit is "active" and carries the three fields its request had
    to supply. *)
Definition credits_complete (st : store) : Prop :=
  forall c, c ∈ carbonCredits st ->
    Credit.status c = "active"
    /\ truthy (Credit.projectId c) = true
    /\ truthy (Credit.verificationId c) = true
    /\ truthy (Credit.creditsAmount c) = true.


(** [s'] is what a submission [s] has become: the same submission, and
    not back to "pending" if it had left that status. *)
Definition reviewed_of (s s' : Submission.t) : Prop :=
  Submission.id s' = Submission.id s
  /\ Submission.uploadId s' = Submission.uploadId s
  /\ Submission.projectId s' = Submission.projectId s
  /\ Submission.submittedAt s' = Submission.submittedAt s
  /\ Submission.dataType s' = Submission.dataType s
  /\ Submission.metadata s' = Submission.metadata s
  /\ (Submission.status s <> "pending" -> Submission.status s' <> "pending").


(** The store after the credit of [issued_store] is listed at a price
    that is no number. *)
Definition unpriced_store : store :=
  fst (handle integer_engine later (PostListCredit "CRD-0e0e0e0e" (offer (VStr "abc")))
         issued_store).

(** A query for the listings priced between 10 and 20. *)
Definition price_query : obj :=
  list_to_map [("minPrice", VStr "10"); ("maxPrice", VStr "20")].


(** A stakeholder of the project of [approved_store]. *)
Definition developer : obj :=
  list_to_map [("name", VStr "GreenTech Solutions");
               ("category", VStr "project_developer");
               ("projects", VArr [VStr "PRJ-0a0a0a0a"])].

Definition staffed_store : store :=
  fst (handle integer_engine (host "1d1d1d1d-bbbb-4bbb-8bbb-bbbbbbbbbbbb" 1700000000350%float)
         (PostStakeholders developer) approved_store).

(** A PUT that renames, and re-identifies, what it updates. *)
Definition renaming : obj :=
  list_to_map [("name", VStr "Krishna Delta Mangroves"); ("id", VStr "PRJ-renamed")].

(** A validation request with complete metadata, and upload requests with
    metadata as text and as an object. *)
Definition survey_check : obj :=
  list_to_map
    [("dataType", VStr "field_survey");
     ("metadata",
      VObj (list_to_map [("collectionDate", VStr "2024-01-15");
                         ("location", VStr "Guntur")]))].

Definition upload_with (metadata : value) : obj :=
  list_to_map [("projectId", VStr "PRJ-0a0a0a0a"); ("dataType", VStr "drone_imagery");
               ("metadata", metadata)].


(* ===================================================================== *)
(** ** Lookup lemmas *)
(* ===================================================================== *)

Lemma strict_eq_str (v : value) (s : string) :
  strict_eq v (VStr s) = true <-> v = VStr s.
Proof.
  destruct v; simpl; try (split; [discriminate | congruence]).
  rewrite String.eqb_eq. split; congruence.
Qed.

Lemma findIndex_None {A} `{HasId A} (array : list A) (id : value) :
  findIndex array id = None <-> Forall (fun x => strict_eq (item_id x) id = false) array.
Proof.
  unfold findIndex. rewrite list_find_None.
  split; intros HF; (eapply Forall_impl; [exact HF|]); simpl; intros x;
    destruct (strict_eq (item_id x) id); congruence.
Qed.

Lemma findIndex_Some {A} `{HasId A} (array : list A) (id : value) (i : nat) (x : A) :
  findIndex array id = Some (i, x) <->
  array !! i = Some x /\ strict_eq (item_id x) id = true
  /\ forall j y, array !! j = Some y -> j < i -> strict_eq (item_id y) id = false.
Proof.
  unfold findIndex. rewrite list_find_Some.
  split; intros (Hi & Hx & Hj); (split; [exact Hi | split; [exact Hx |]]);
    intros j y Hy Hlt; specialize (Hj j y Hy Hlt);
    destruct (strict_eq (item_id y) id); congruence.
Qed.

Lemma findById_None {A} `{HasId A} (array : list A) (id : value) :
  findById array id = None <-> findIndex array id = None.
Proof. unfold findById. destruct (findIndex array id); simpl; split; congruence. Qed.

Lemma findById_Some {A} `{HasId A} (array : list A) (id : value) (x : A) :
  findById array id = Some x <-> exists i, findIndex array id = Some (i, x).
Proof.
  unfold findById. destruct (findIndex array id) as [[i y]|]; simpl.
  - split; [intros [= ->]; eauto | intros (j & [= _ ->]); reflexivity].
  - split; [discriminate | intros (j & [=])].
Qed.

(** A string id is absent from a collection exactly when no lookup finds it. *)
Lemma absent_findIndex {A} `{HasId A} (array : list A) (id : string) :
  VStr id ∉ map item_id array -> findIndex array (VStr id) = None.
Proof.
  intros Hnot. apply findIndex_None, Forall_forall. intros x Hx.
  destruct (strict_eq (item_id x) (VStr id)) eqn:Heq; [|reflexivity].
  exfalso. apply Hnot. apply strict_eq_str in Heq. rewrite <- Heq.
  apply list_elem_of_fmap. exists x. split; [reflexivity | exact Hx].
Qed.

Lemma present_findIndex {A} `{HasId A} (array : list A) (id : string) :
  VStr id ∈ map item_id array -> exists i x, findIndex array (VStr id) = Some (i, x).
Proof.
  intros Hin. destruct (findIndex array (VStr id)) as [[i x]|] eqn:Hf; [eauto|].
  exfalso. apply findIndex_None in Hf. rewrite Forall_forall in Hf.
  apply list_elem_of_fmap in Hin as (x & Hx & Hin). specialize (Hf x Hin).
  rewrite <- Hx in Hf. assert (strict_eq (item_id x) (item_id x) = true) as Ht.
  { rewrite <- Hx. simpl. apply String.eqb_refl. }
  congruence.
Qed.

(* ===================================================================== *)
(** ** Deleting what is not there *)
(* ===================================================================== *)

(** C9. For every entity type, a DELETE for an id that no record of that
    type carries is answered with a 404 not-found error and leaves the
    store as it was; so the record count of every collection is the same
    before and after. *)
Theorem delete_absent_not_found (E : engine) (e : env) (k : entity) (id : string)
    (st : store) :
  VStr id ∉ ids_of k st ->
  (exists error, handle E e (delete_request k id) st = (st, Failure 404 error))
  /\ forall k', record_count k' (fst (handle E e (delete_request k id) st))
                = record_count k' st.
Proof.
  intros Habsent.
  assert (exists error, handle E e (delete_request k id) st = (st, Failure 404 error)) as Hr.
  { destruct k; simpl in *; try (eexists; reflexivity).
    - unfold delete_project. rewrite (absent_findIndex _ _ Habsent). eauto.
    - unfold delete_upload. rewrite (absent_findIndex _ _ Habsent). eauto. }
  split; [exact Hr|]. destruct Hr as (error & ->). reflexivity.
Qed.


(* ===================================================================== *)
(** ** Issuing credits *)
(* ===================================================================== *)

Section IssueCredit.
Variable E : engine.


End IssueCredit.


(** No request rewrites or removes a stored credit: the array of credits
    only grows at its end, so a credit keeps the serial number it was
    created with. *)
Lemma credits_append_only (E : engine) (e : env) (r : request) (st : store) :
  exists new, carbonCredits (fst (handle E e r st)) = carbonCredits st ++ new.
Proof.
  destruct r; simpl;
    unfold post_projects, put_project, delete_project, post_data_upload,
      delete_upload, verify_upload, approve_submission, reject_submission,
      request_more, generate_credit, post_stakeholders, put_stakeholder,
      browse_credits, list_credit, marketplace_prices, not_found;
    repeat case_match; simpl;
    first [ by (exists []; rewrite app_nil_r) | by eexists ].
Qed.

Lemma credits_prefix_run (E : engine) (trace : list (env * request)) (st : store) :
  carbonCredits st `prefix_of` carbonCredits (run E trace st).
Proof.
  revert st. induction trace as [|[e r] trace IH]; intros st; simpl.
  - reflexivity.
  - etransitivity; [|apply IH].
    destruct (credits_append_only E e r st) as (new & ->). by exists new.
Qed.

(** Two credit requests with the same projectId and vintage, served while
    the clock shows the same millisecond, are given the same serial number.
    The ids of the two credits play no part in it. *)
Lemma same_clock_same_serial (E : engine) (e1 e2 : env) (body : obj) (st1 st2 : store)
    (c1 c2 : Credit.t) :
  now e1 = now e2 ->
  snd (handle E e1 (PostCreditsGenerate body) st1) = Success 201 (PCredit c1) ->
  snd (handle E e2 (PostCreditsGenerate body) st2) = Success 201 (PCredit c2) ->
  Credit.serialNumber c1 = Credit.serialNumber c2.
Proof.
  simpl. unfold generate_credit. intros Hnow H1 H2.
  repeat case_match; simpl in *; try discriminate.
  injection H1 as <-. injection H2 as <-. simpl. by rewrite Hnow.
Qed.

(** The scenario never asks the engine for a conversion before a credit is
    requested, so every engine runs it to the same store. *)
Lemma approved_store_any_engine (E : engine) :
  run E approved_trace empty_store = approved_store.
Proof. vm_compute. reflexivity. Qed.

(** C2. The server reaches a store in which two different credits carry
    the same serial number: after a project, an upload, its submission and
    its approval, two requests for a credit of that project and vintage
    arrive within one millisecond. *)
Theorem serial_number_collision (E : engine) :
  let st := run E same_millisecond_trace empty_store in
  reachable E st
  /\ map Credit.id (carbonCredits st) = ["CRD-0e0e0e0e"; "CRD-0f0f0f0f"]
  /\ (exists serial, map Credit.serialNumber (carbonCredits st) = [serial; serial])
  /\ ~ NoDup (map Credit.serialNumber (carbonCredits st)).
Proof.
  intros st.
  assert (exists serial, map Credit.serialNumber (carbonCredits st) = [serial; serial])
    as Hserials by (eexists; vm_compute; reflexivity).
  split; [by exists same_millisecond_trace|].
  split; [vm_compute; reflexivity|]. split; [exact Hserials|].
  destruct Hserials as (serial & ->). intros Hnodup.
  apply NoDup_cons in Hnodup as [Hnotin _]. apply Hnotin. constructor.
Qed.

(** C8. A request for a credit of -5 units, against a project with an
    approved verification, is accepted: the reply is a success and the
    credit is stored with the amount -5, which is not greater than 0. *)
Theorem negative_amount_accepted (E : engine) (e : env) :
  let st' := fst (handle E e (PostCreditsGenerate negative_credit) approved_store) in
  let r := snd (handle E e (PostCreditsGenerate negative_credit) approved_store) in
  reachable E approved_store
  /\ is_success r = true
  /\ map Credit.creditsAmount (carbonCredits st') = [VNum (-5)%float]
  /\ PrimFloat.ltb 0%float (-5)%float = false.
Proof.
  split; [exists approved_trace; apply approved_store_any_engine|].
  split; [vm_compute; reflexivity|].
  split; vm_compute; reflexivity.
Qed.

(* ===================================================================== *)
(** ** The verification workflow *)
(* ===================================================================== *)

Section Workflow.
Variable E : engine.

(** C3. Submitting an existing upload for verification sets the status of
    that upload (the first one carrying the id) to
    "submitted_for_verification" and appends exactly one submission, whose
    status is "pending", whose uploadId is the upload's id and whose
    projectId, dataType and metadata are the upload's; when no upload
    carries the id the reply is the 404 "Upload not found" and nothing is
    created. *)
Theorem submit_for_verification (e : env) (id : string) (st : store) :
  let st' := fst (handle E e (PostVerify id) st) in
  let r := snd (handle E e (PostVerify id) st) in
  (VStr id ∈ ids_of DataUpload st ->
   exists i upload submission,
     dataUploads st !! i = Some upload
     /\ Upload.id upload = id
     /\ (forall j u, dataUploads st !! j = Some u -> j < i -> Upload.id u <> id)
     /\ r = Success 200 (PSubmission submission)
     /\ dataUploads st'
        = <[i := Upload.set_status "submitted_for_verification" upload]> (dataUploads st)
     /\ verificationSubmissions st' = verificationSubmissions st ++ [submission]
     /\ Submission.status submission = "pending"
     /\ Submission.uploadId submission = id
     /\ Submission.projectId submission = Upload.projectId upload
     /\ Submission.dataType submission = Upload.dataType upload
     /\ Submission.metadata submission = Upload.metadata upload
     /\ projects st' = projects st
     /\ carbonCredits st' = carbonCredits st
     /\ stakeholders st' = stakeholders st
     /\ marketplaceListings st' = marketplaceListings st)
  /\ (VStr id ∉ ids_of DataUpload st ->
      r = Failure 404 "Upload not found" /\ st' = st).
Proof.
  simpl. unfold verify_upload. split.
  - intros Hin. apply present_findIndex in Hin as (i & upload & Hfind).
    rewrite Hfind. simpl.
    apply findIndex_Some in Hfind as (Hi & Hid & Hfirst).
    apply strict_eq_str in Hid. injection Hid as Hid.
    exists i, upload. eexists. repeat split; try done.
    intros j u Hu Hlt Heq. specialize (Hfirst j u Hu Hlt).
    unfold item_id, upload_id in Hfirst. rewrite Heq in Hfirst. simpl in Hfirst.
    rewrite String.eqb_refl in Hfirst. discriminate.
  - intros Hnot. rewrite (absent_findIndex _ _ Hnot). done.
Qed.

(** C4. Approving fails with the 404 "Submission not found" if and only if
    no submission carries the id.  On an existing submission it succeeds
    whatever the status was: the status becomes "approved", creditsGenerated
    is the supplied one or 0, qualityScore and the approval time are
    recorded; a submission that was "rejected" is approved like any other. *)
Theorem approve_unconditional (e : env) (id : string) (body : obj) (st : store) :
  let st' := fst (handle E e (PostApprove id body) st) in
  let r := snd (handle E e (PostApprove id body) st) in
  (is_success r = false <-> VStr id ∉ ids_of VerificationSubmission st)
  /\ (VStr id ∉ ids_of VerificationSubmission st ->
      r = Failure 404 "Submission not found" /\ st' = st)
  /\ (VStr id ∈ ids_of VerificationSubmission st ->
      exists i old new,
        verificationSubmissions st !! i = Some old
        /\ Submission.id old = id
        /\ findById (verificationSubmissions st) (VStr id) = Some old
        /\ r = Success 200 (PSubmission new)
        /\ verificationSubmissions st' = <[i := new]> (verificationSubmissions st)
        /\ Submission.status new = "approved"
        /\ Submission.creditsGenerated new
           = (if truthy (field body "creditsGenerated")
              then field body "creditsGenerated" else VNum 0%float)
        /\ Submission.qualityScore new = field body "qualityScore"
        /\ Submission.comments new = field body "comments"
        /\ Submission.approvedAt new = VStr (isoString e 0)
        /\ Submission.id new = id
        /\ Submission.uploadId new = Submission.uploadId old)
  /\ (forall old,
        findById (verificationSubmissions st) (VStr id) = Some old ->
        Submission.status old = "rejected" ->
        exists new, r = Success 200 (PSubmission new)
                    /\ Submission.status new = "approved"
                    /\ findById (verificationSubmissions st') (VStr id) = Some new).
Proof.
  simpl. unfold approve_submission.
  assert (VStr id ∉ ids_of VerificationSubmission st ->
          findIndex (verificationSubmissions st) (VStr id) = None) as Habsent
    by apply absent_findIndex.
  assert (VStr id ∈ ids_of VerificationSubmission st ->
          exists i old, findIndex (verificationSubmissions st) (VStr id) = Some (i, old))
    as Hpresent by apply present_findIndex.
  split; [|split; [|split]].
  - split.
    + intros Hfail Hin. apply Hpresent in Hin as (i & old & Hfind).
      rewrite Hfind in Hfail. discriminate.
    + intros Hnot. rewrite (Habsent Hnot). reflexivity.
  - intros Hnot. rewrite (Habsent Hnot). done.
  - intros Hin. apply Hpresent in Hin as (i & old & Hfind). rewrite Hfind. simpl.
    assert (findById (verificationSubmissions st) (VStr id) = Some old) as Hby
      by (apply findById_Some; eauto).
    apply findIndex_Some in Hfind as (Hi & Hid & _).
    apply strict_eq_str in Hid. injection Hid as Hid.
    exists i, old. eexists. repeat split; done.
  - intros old Hby Hrejected. apply findById_Some in Hby as (i & Hfind).
    rewrite Hfind. simpl. eexists. split; [reflexivity|]. split; [reflexivity|].
    apply findById_Some. exists i. apply findIndex_Some.
    apply findIndex_Some in Hfind as (Hi & Hid & Hfirst).
    split; [|split].
    + apply list_lookup_insert_eq. by eapply lookup_lt_Some.
    + exact Hid.
    + intros j y Hy Hlt. rewrite list_lookup_insert_ne in Hy by lia. eauto.
Qed.
End Workflow.

(* ===================================================================== *)
(** ** The marketplace *)
(* ===================================================================== *)

(** The price check [!price || price <= 0] on a number is the negation of
    [price > 0]. *)
Lemma positive_price_passes (p : float) :
  PrimFloat.ltb 0%float p = true ->
  truthy (VNum p) = true /\ PrimFloat.leb p 0%float = false.
Proof.
  unfold truthy, is_nan. rewrite FloatAxioms.ltb_spec, !FloatAxioms.eqb_spec,
    FloatAxioms.leb_spec.
  change (Prim2SF 0%float) with (S754_zero false).
  destruct (Prim2SF p) as [s|s| |s m x]; cbn; try discriminate.
  - destruct s; [discriminate|]. auto.
  - destruct s; [discriminate|]. intros _. split; [|reflexivity].
    unfold SFeqb. cbn. by rewrite Pos.compare_refl, Z.compare_refl.
Qed.

Lemma nonpositive_price_fails (p : float) :
  PrimFloat.ltb 0%float p = false ->
  negb (truthy (VNum p)) || PrimFloat.leb p 0%float = true.
Proof.
  unfold truthy, is_nan. rewrite FloatAxioms.ltb_spec, !FloatAxioms.eqb_spec,
    FloatAxioms.leb_spec.
  change (Prim2SF 0%float) with (S754_zero false).
  destruct (Prim2SF p) as [s|s| |s m x]; cbn; try done.
  - destruct s; [|discriminate]. done.
  - destruct s; [|discriminate]. intros _. unfold SFeqb. cbn.
    rewrite Pos.compare_refl, Z.compare_refl. done.
Qed.

Section Marketplace.
Variable E : engine.

(** Where the price check of the listing handler does what is expected of
    it.  No credit with the id: the 404.  With the credit found, a falsy
    price (undefined, null, the empty string, false, 0, NaN) or a number
    not greater than 0 is refused with the 400 "Valid price is required",
    and a number greater than 0 is accepted: a listing is appended with
    status "active" and the credit's whole creditsAmount.  Truthy prices
    that are not numbers are not covered here. *)
Lemma list_credit_on_numbers (e : env) (id : string) (body : obj) (st : store) :
  let st' := fst (handle E e (PostListCredit id body) st) in
  let r := snd (handle E e (PostListCredit id body) st) in
  (VStr id ∉ ids_of CarbonCredit st ->
   r = Failure 404 "Credit not found" /\ st' = st)
  /\ (forall credit,
        findById (carbonCredits st) (VStr id) = Some credit ->
        (truthy (field body "price") = false
         \/ (exists p, field body "price" = VNum p /\ PrimFloat.ltb 0%float p = false) ->
         r = Failure 400 "Valid price is required" /\ st' = st)
        /\ (forall p,
              field body "price" = VNum p ->
              PrimFloat.ltb 0%float p = true ->
              exists listing,
                r = Success 201 (PListing listing)
                /\ st' = with_marketplaceListings (marketplaceListings st ++ [listing]) st
                /\ Listing.status listing = "active"
                /\ Listing.availableQuantity listing = Credit.creditsAmount credit
                /\ Listing.creditId listing = id)).
Proof.
  simpl. unfold list_credit. split.
  - intros Hnot. apply absent_findIndex, findById_None in Hnot. rewrite Hnot. done.
  - intros credit Hcredit. rewrite Hcredit. split.
    + intros [-> | (p & -> & Hp)]; [done|].
      unfold js_le. simpl to_number. rewrite (nonpositive_price_fails p Hp). done.
    + intros p -> Hp. unfold js_le. simpl to_number.
      destruct (positive_price_passes p Hp) as [-> ->]. simpl.
      eexists. repeat split.
      apply findById_Some in Hcredit as (i & Hfind).
      apply findIndex_Some in Hfind as (_ & Hid & _).
      apply strict_eq_str in Hid. by injection Hid.
Qed.

End Marketplace.

(** The prices [priceStats] works on are those of the "active" listings. *)
Lemma prices_are_active_prices (st : store) :
  map Listing.price (filter (fun l => is_active l = true) (marketplaceListings st))
  = active_prices st.
Proof.
  unfold active_prices. f_equal. apply list_filter_iff. intros l. apply String.eqb_eq.
Qed.

Lemma permutation_of_three {A} (a b c : A) (l : list A) :
  l ≡ₚ [a; b; c] ->
  l = [a; b; c] \/ l = [a; c; b] \/ l = [b; a; c] \/ l = [b; c; a]
  \/ l = [c; a; b] \/ l = [c; b; a].
Proof.
  intros Hperm. symmetry in Hperm. apply permutations_Permutation in Hperm.
  vm_compute in Hperm.
  repeat (apply elem_of_cons in Hperm as [Hperm|Hperm]; [tauto|]).
  by apply elem_of_nil in Hperm.
Qed.

(** C5. When the active listings have exactly the prices 5, 15 and 25 (in
    any order), the price statistics are: average 15, minimum 5,
    maximum 25, three listings, and one price in each of the buckets
    below 10, from 10 to below 20, and 20 or more. *)
Theorem price_stats_5_15_25 (E : engine) (e : env) (st : store) :
  active_prices st ≡ₚ [5%float; 15%float; 25%float] ->
  handle E e GetMarketplacePrices st
  = (st, Success 200 (PStats
       {| averagePrice := 15%float;
          minPrice := 5%float;
          maxPrice := 25%float;
          totalListings := 3;
          priceRange := {| low := 1; medium := 1; high := 1 |} |})).
Proof.
  intros Hperm. simpl. unfold marketplace_prices, priceStats.
  rewrite <- (length_map Listing.price
                (filter (fun l => is_active l = true) (marketplaceListings st))).
  rewrite prices_are_active_prices.
  destruct (permutation_of_three _ _ _ _ Hperm) as [-> | [-> | [-> | [-> | [-> | ->]]]]];
    vm_compute; reflexivity.
Qed.

(** The three listings of [listed_store] are the active ones, at 5, 15, 25. *)
Lemma price_stats_5_15_25_witness :
  let e := host "2a2a2a2a-aaaa-4aaa-8aaa-aaaaaaaaaaaa" 1700000000800%float in
  snd (handle integer_engine e GetMarketplacePrices listed_store)
  = Success 200 (PStats
       {| averagePrice := 15%float;
          minPrice := 5%float;
          maxPrice := 25%float;
          totalListings := 3;
          priceRange := {| low := 1; medium := 1; high := 1 |} |}).
Proof.
  intros e. rewrite (price_stats_5_15_25 integer_engine e listed_store).
  - reflexivity.
  - vm_compute. reflexivity.
Defined.

(** C10. With no "active" listing in the store the price statistics are an
    average, a minimum and a maximum of 0, no listing, and three empty
    buckets: the reply is a success, whatever else the store holds. *)
Theorem price_stats_no_active (E : engine) (e : env) (st : store) :
  (forall l, l ∈ marketplaceListings st -> Listing.status l <> "active") ->
  handle E e GetMarketplacePrices st
  = (st, Success 200 (PStats
       {| averagePrice := 0%float;
          minPrice := 0%float;
          maxPrice := 0%float;
          totalListings := 0;
          priceRange := {| low := 0; medium := 0; high := 0 |} |})).
Proof.
  intros Hnone. simpl. unfold marketplace_prices, priceStats.
  assert (filter (fun l => is_active l = true) (marketplaceListings st) = []) as ->;
    [|reflexivity].
  induction (marketplaceListings st) as [|l ls IH]; [reflexivity|].
  rewrite filter_cons. destruct (decide (is_active l = true)) as [Hactive|_].
  - exfalso. apply (Hnone l); [left|]. by apply String.eqb_eq.
  - apply IH. intros l' Hl'. apply Hnone. by right.
Qed.

(** The store before the credit is listed has no listing at all. *)
Lemma price_stats_no_active_witness :
  let e := host "2a2a2a2a-aaaa-4aaa-8aaa-aaaaaaaaaaaa" 1700000000800%float in
  snd (handle integer_engine e GetMarketplacePrices issued_store)
  = Success 200 (PStats
       {| averagePrice := 0%float;
          minPrice := 0%float;
          maxPrice := 0%float;
          totalListings := 0;
          priceRange := {| low := 0; medium := 0; high := 0 |} |}).
Proof.
  intros e. rewrite (price_stats_no_active integer_engine e issued_store).
  - reflexivity.
  - intros l Hl. vm_compute in Hl. inversion Hl.
Defined.

(* ===================================================================== *)
(** ** The theorems at work on the scenario *)
(* ===================================================================== *)

(** No project of [approved_store] has the id PRJ-ffffffff. *)
Lemma delete_absent_not_found_witness :
  (exists error,
     handle integer_engine later (delete_request Project "PRJ-ffffffff") approved_store
     = (approved_store, Failure 404 error))
  /\ forall k',
       record_count k'
         (fst (handle integer_engine later (delete_request Project "PRJ-ffffffff")
                 approved_store))
       = record_count k' approved_store.
Proof.
  apply (delete_absent_not_found integer_engine later Project "PRJ-ffffffff" approved_store).
  intros Hin. vm_compute in Hin. apply list_elem_of_singleton in Hin. discriminate.
Defined.

(** The upload UPL-0b0b0b0b of [uploaded_store] is submitted. *)
Lemma submit_for_verification_witness :
  let st' := fst (handle integer_engine later (PostVerify "UPL-0b0b0b0b") uploaded_store) in
  let r := snd (handle integer_engine later (PostVerify "UPL-0b0b0b0b") uploaded_store) in
  exists submission,
    r = Success 200 (PSubmission submission)
    /\ verificationSubmissions st' = [submission]
    /\ Submission.status submission = "pending"
    /\ Submission.uploadId submission = "UPL-0b0b0b0b"
    /\ map Upload.status (dataUploads st') = ["submitted_for_verification"].
Proof.
  intros st' r.
  destruct (proj1 (submit_for_verification integer_engine later "UPL-0b0b0b0b"
                     uploaded_store))
    as (i & upload & submission & Hi & _ & _ & Hr & Hups & Hsubs & Hstatus & Hupload & _).
  - vm_compute. apply list_elem_of_singleton. reflexivity.
  - exists submission. split; [exact Hr|]. split; [exact Hsubs|].
    split; [exact Hstatus|]. split; [exact Hupload|]. vm_compute. reflexivity.
Defined.

(** The rejected submission SUB-0c0c0c0c of [rejected_store] is approved. *)
Lemma approve_unconditional_witness :
  let st' := fst (handle integer_engine later (PostApprove "SUB-0c0c0c0c" approval)
                    rejected_store) in
  let r := snd (handle integer_engine later (PostApprove "SUB-0c0c0c0c" approval)
                  rejected_store) in
  map Submission.status (verificationSubmissions rejected_store) = ["rejected"]
  /\ exists new,
       r = Success 200 (PSubmission new)
       /\ Submission.status new = "approved"
       /\ findById (verificationSubmissions st') (VStr "SUB-0c0c0c0c") = Some new.
Proof.
  intros st' r. split; [vm_compute; reflexivity|].
  eapply (proj2 (proj2 (proj2 (approve_unconditional integer_engine later "SUB-0c0c0c0c"
                                 approval rejected_store)))).
  - vm_compute. reflexivity.
  - reflexivity.
Defined.

(** The credit CRD-0e0e0e0e of [issued_store] is listed at 12. *)
Lemma list_credit_on_numbers_example :
  let st' := fst (handle integer_engine later (PostListCredit "CRD-0e0e0e0e"
                    (offer (VNum 12%float))) issued_store) in
  let r := snd (handle integer_engine later (PostListCredit "CRD-0e0e0e0e"
                  (offer (VNum 12%float))) issued_store) in
  exists listing,
    r = Success 201 (PListing listing)
    /\ marketplaceListings st' = [listing]
    /\ Listing.status listing = "active"
    /\ Listing.availableQuantity listing = VNum 1000%float.
Proof.
  intros st' r.
  destruct (findById (carbonCredits issued_store) (VStr "CRD-0e0e0e0e")) as [credit|] eqn:Hc;
    [|vm_compute in Hc; discriminate].
  destruct (proj2 (proj2 (list_credit_on_numbers integer_engine later "CRD-0e0e0e0e"
                            (offer (VNum 12%float)) issued_store)
                     credit Hc) 12%float)
    as (listing & Hr & Hst & Hstatus & Hqty & _).
  - reflexivity.
  - reflexivity.
  - exists listing. split; [exact Hr|]. subst st'. rewrite Hst.
    split; [reflexivity|]. split; [exact Hstatus|]. rewrite Hqty.
    vm_compute in Hc. by injection Hc as <-.
Defined.


(* ===================================================================== *)
(** ** What every request keeps *)
(* ===================================================================== *)

Ltac handler_cases r :=
  destruct r; simpl;
  unfold post_projects, put_project, delete_project, post_data_upload,
    delete_upload, verify_upload, approve_submission, reject_submission,
    request_more, generate_credit, post_stakeholders, put_stakeholder,
    browse_credits, list_credit, marketplace_prices, not_found;
  repeat case_match; simpl.

(** A property of the empty store that every request keeps holds after
    any sequence of requests. *)
Lemma run_invariant (E : engine) (P : store -> Prop) :
  (forall e r st, P st -> P (fst (handle E e r st))) ->
  forall trace st, P st -> P (run E trace st).
Proof.
  intros Hstep trace. induction trace as [|[e r] trace IH]; intros st Hst; simpl.
  - exact Hst.
  - apply IH, Hstep, Hst.
Qed.

Lemma findById_app_l {A} `{HasId A} (l k : list A) (id : value) (x : A) :
  findById l id = Some x -> findById (l ++ k) id = Some x.
Proof.
  intros (i & Hfind)%findById_Some. apply findById_Some. exists i.
  unfold findIndex in *. by apply list_find_app_l.
Qed.

Lemma findById_id {A} `{HasId A} (l : list A) (id : value) (x : A) :
  findById l id = Some x -> strict_eq (item_id x) id = true.
Proof. intros (i & Hfind)%findById_Some. by apply findIndex_Some in Hfind as (_ & ? & _). Qed.

(** X1. A request that is answered with a failure leaves the store as it
    was, whatever the request. *)
Theorem failed_request_keeps_store (E : engine) (e : env) (r : request) (st : store) :
  is_success (snd (handle E e r st)) = false ->
  fst (handle E e r st) = st.
Proof. handler_cases r; intros Hfail; first [reflexivity | discriminate]. Qed.

(** A credit for a project that does not exist is refused and nothing is
    stored. *)
Lemma failed_request_keeps_store_witness :
  fst (handle integer_engine later
         (PostCreditsGenerate (credit_request (VNum 1000%float))) empty_store)
  = empty_store.
Proof.
  apply (failed_request_keeps_store integer_engine later
           (PostCreditsGenerate (credit_request (VNum 1000%float))) empty_store).
  reflexivity.
Defined.

Lemma listings_append_only (E : engine) (e : env) (r : request) (st : store) :
  exists new,
    marketplaceListings (fst (handle E e r st)) = marketplaceListings st ++ new.
Proof.
  handler_cases r; first [ by (exists []; rewrite app_nil_r) | by eexists ].
Qed.

(** X2. No sequence of requests removes, reorders or rewrites a stored
    credit or a stored listing: both arrays only grow at their end. *)
Theorem credits_and_listings_only_grow (E : engine) (trace : list (env * request))
    (st : store) :
  carbonCredits st `prefix_of` carbonCredits (run E trace st)
  /\ marketplaceListings st `prefix_of` marketplaceListings (run E trace st).
Proof.
  split; [apply credits_prefix_run|].
  revert st. induction trace as [|[e r] trace IH]; intros st; simpl.
  - reflexivity.
  - etransitivity; [|apply IH].
    destruct (listings_append_only E e r st) as (new & ->). by exists new.
Qed.

Lemma listings_backed_step (E : engine) (e : env) (r : request) (st : store) :
  listings_backed st -> listings_backed (fst (handle E e r st)).
Proof.
  unfold listings_backed.
  handler_cases r; intros Hinv lst Hl; try (by apply Hinv).
  (* a credit is appended: lookups that succeeded still do *)
  all: try (destruct (Hinv lst Hl) as (Hactive & credit & Hfind & Hqty);
            split; [exact Hactive|]; exists credit; split; [|exact Hqty];
            by apply findById_app_l).
  (* a listing is appended *)
  all: apply elem_of_app in Hl as [Hl | ->%list_elem_of_singleton]; [by apply Hinv|].
  all: simpl; split; [reflexivity|]; eexists; split; [|reflexivity].
  all: match goal with Hc : findById (carbonCredits _) _ = Some ?c |- _ =>
         pose proof (findById_id _ _ _ Hc) as Hid; apply strict_eq_str in Hid;
         injection Hid as Hid; rewrite Hid; exact Hc end.
Qed.

(** X3. After any sequence of requests, every listing is "active", names
    a credit that the store holds, and offers exactly that credit's
    creditsAmount: listings are never sold down, closed or orphaned. *)
Theorem listings_stay_backed (E : engine) (trace : list (env * request)) :
  listings_backed (run E trace empty_store).
Proof.
  apply (run_invariant E listings_backed).
  - intros e r st. apply listings_backed_step.
  - intros l Hl. by apply elem_of_nil in Hl.
Qed.

Lemma elem_of_insert_cases {A} (l : list A) (i : nat) (x y : A) :
  y ∈ <[i := x]> l -> y = x \/ y ∈ l.
Proof.
  intros (j & Hj)%list_elem_of_lookup_1.
  destruct (decide (i = j)) as [->|Hne].
  - destruct (decide (j < length l)) as [Hlt|Hge].
    + rewrite list_lookup_insert_eq in Hj by done. left. congruence.
    + rewrite list_insert_ge in Hj by lia. right. by eapply list_elem_of_lookup_2.
  - rewrite list_lookup_insert_ne in Hj by done. right. by eapply list_elem_of_lookup_2.
Qed.

Lemma statuses_in_use_step (E : engine) (e : env) (r : request) (st : store) :
  statuses_in_use st -> statuses_in_use (fst (handle E e r st)).
Proof.
  unfold statuses_in_use.
  handler_cases r; intros [Hup Hsub]; (split; [intros upl Hu | intros sub Hs]);
    try (by apply Hup); try (by apply Hsub);
    repeat match goal with
    | H : _ ∈ _ ++ [_] |- _ =>
        apply elem_of_app in H as [H | ->%list_elem_of_singleton]
    | H : _ ∈ <[_ := _]> _ |- _ => apply elem_of_insert_cases in H as [-> | H]
    | H : _ ∈ delete _ _ |- _ => apply list_elem_of_delete_inv in H
    end;
    simpl; try (by apply Hup); try (by apply Hsub); auto.
Qed.

(** X4. After any sequence of requests, an upload is "uploaded" or
    "submitted_for_verification" and a submission is "pending",
    "approved", "rejected" or "more_data_requested": no request writes
    another status. *)
Theorem statuses_stay_in_use (E : engine) (trace : list (env * request)) :
  statuses_in_use (run E trace empty_store).
Proof.
  apply (run_invariant E statuses_in_use).
  - intros e r st. apply statuses_in_use_step.
  - split; intros x Hx; by apply elem_of_nil in Hx.
Qed.

Lemma credits_complete_step (E : engine) (e : env) (r : request) (st : store) :
  credits_complete st -> credits_complete (fst (handle E e r st)).
Proof.
  unfold credits_complete.
  handler_cases r; intros Hinv crd Hc; try (by apply Hinv).
  all: apply elem_of_app in Hc as [Hc | ->%list_elem_of_singleton]; [by apply Hinv|].
  all: simpl.
  all: match goal with H : orb (orb _ _) _ = false |- _ =>
         apply orb_false_iff in H as [[Hp Hv]%orb_false_iff Ha];
         apply negb_false_iff in Hp, Hv, Ha end.
  all: auto.
Qed.

(** X5. After any sequence of requests, every credit is "active" and has
    a truthy projectId, verificationId and creditsAmount: credits are
    never retired or cancelled, and none lacks a required field. *)
Theorem credits_stay_complete (E : engine) (trace : list (env * request)) :
  credits_complete (run E trace empty_store).
Proof.
  apply (run_invariant E credits_complete).
  - intros e r st. apply credits_complete_step.
  - intros c Hc. by apply elem_of_nil in Hc.
Qed.

(* ===================================================================== *)
(** ** Review decisions *)
(* ===================================================================== *)

Lemma reviewed_of_refl (s : Submission.t) : reviewed_of s s.
Proof. by repeat split. Qed.

Lemma reviewed_of_trans (s1 s2 s3 : Submission.t) :
  reviewed_of s1 s2 -> reviewed_of s2 s3 -> reviewed_of s1 s3.
Proof.
  intros (? & ? & ? & ? & ? & ? & ?) (? & ? & ? & ? & ? & ? & ?).
  repeat split; try congruence. auto.
Qed.

Lemma submissions_kept_step (E : engine) (e : env) (r : request) (st : store)
    (i : nat) (s : Submission.t) :
  verificationSubmissions st !! i = Some s ->
  exists s', verificationSubmissions (fst (handle E e r st)) !! i = Some s'
             /\ reviewed_of s s'.
Proof.
  intros Hi.
  handler_cases r;
    try (exists s; split; [first [exact Hi | by apply lookup_app_l_Some] | apply reviewed_of_refl]).
  all: match goal with
       | Hf : findIndex (verificationSubmissions _) _ = Some (?n, ?old) |- _ =>
           apply findIndex_Some in Hf as (Hn & _ & _);
           destruct (decide (n = i)) as [-> | Hne];
           [ rewrite Hi in Hn; injection Hn as <-;
             eexists; split;
             [ apply list_lookup_insert_eq; by eapply lookup_lt_Some
             | by repeat split ]
           | exists s; split;
             [ by rewrite list_lookup_insert_ne | apply reviewed_of_refl ] ]
       end.
Qed.

(** X6. No sequence of requests removes a submission or moves it: it stays
    at its index with its id, uploadId, projectId, submittedAt, dataType
    and metadata, and once it has left "pending" it never returns to it. *)
Theorem submissions_never_lost (E : engine) (trace : list (env * request)) (st : store)
    (i : nat) (s : Submission.t) :
  verificationSubmissions st !! i = Some s ->
  exists s', verificationSubmissions (run E trace st) !! i = Some s'
             /\ reviewed_of s s'.
Proof.
  revert st s. induction trace as [|[e r] trace IH]; intros st s Hi; simpl.
  - exists s. split; [exact Hi | apply reviewed_of_refl].
  - destruct (submissions_kept_step E e r st i s Hi) as (s1 & H1 & Hr1).
    destruct (IH _ _ H1) as (s2 & H2 & Hr2).
    exists s2. split; [exact H2 | by eapply reviewed_of_trans].
Qed.

(** What the three review handlers share: the first submission with the id
    is replaced by [f] of it, or the reply is the 404. *)
Lemma review_outcome (f : Submission.t -> Submission.t) (id : string) (st : store) :
  let out :=
    match findIndex (verificationSubmissions st) (VStr id) with
    | None => (st, Failure 404 "Submission not found")
    | Some (i, old) =>
        (with_verificationSubmissions (<[i := f old]> (verificationSubmissions st)) st,
         Success 200 (PSubmission (f old)))
    end in
  (is_success (snd out) = false <-> VStr id ∉ ids_of VerificationSubmission st)
  /\ (VStr id ∉ ids_of VerificationSubmission st ->
      out = (st, Failure 404 "Submission not found"))
  /\ (VStr id ∈ ids_of VerificationSubmission st ->
      exists i old,
        verificationSubmissions st !! i = Some old
        /\ Submission.id old = id
        /\ findById (verificationSubmissions st) (VStr id) = Some old
        /\ out = (with_verificationSubmissions
                    (<[i := f old]> (verificationSubmissions st)) st,
                  Success 200 (PSubmission (f old)))).
Proof.
  simpl.
  assert (VStr id ∉ ids_of VerificationSubmission st ->
          findIndex (verificationSubmissions st) (VStr id) = None) as Habsent
    by apply absent_findIndex.
  assert (VStr id ∈ ids_of VerificationSubmission st ->
          exists i old, findIndex (verificationSubmissions st) (VStr id) = Some (i, old))
    as Hpresent by apply present_findIndex.
  split; [|split].
  - split.
    + intros Hfail Hin. apply Hpresent in Hin as (i & old & Hfind).
      rewrite Hfind in Hfail. discriminate.
    + intros Hnot. by rewrite (Habsent Hnot).
  - intros Hnot. by rewrite (Habsent Hnot).
  - intros Hin. apply Hpresent in Hin as (i & old & Hfind). rewrite Hfind.
    assert (findById (verificationSubmissions st) (VStr id) = Some old) as Hby
      by (apply findById_Some; eauto).
    apply findIndex_Some in Hfind as (Hi & Hid & _).
    apply strict_eq_str in Hid. injection Hid as Hid.
    by exists i, old.
Qed.

(** X7. Rejecting fails with the 404 "Submission not found" if and only if
    no submission carries the id.  Otherwise it succeeds whatever the
    status was: the status becomes "rejected", the reason and the comments
    are stored as supplied, requiredActions is the supplied one or the
    empty array, and what an earlier approval recorded (creditsGenerated,
    qualityScore, approvedAt) stays on the submission. *)
Theorem reject_unconditional (E : engine) (e : env) (id : string) (body : obj)
    (st : store) :
  let st' := fst (handle E e (PostReject id body) st) in
  let r := snd (handle E e (PostReject id body) st) in
  (is_success r = false <-> VStr id ∉ ids_of VerificationSubmission st)
  /\ (VStr id ∉ ids_of VerificationSubmission st ->
      r = Failure 404 "Submission not found" /\ st' = st)
  /\ (VStr id ∈ ids_of VerificationSubmission st ->
      exists i old new,
        verificationSubmissions st !! i = Some old
        /\ Submission.id old = id
        /\ findById (verificationSubmissions st) (VStr id) = Some old
        /\ r = Success 200 (PSubmission new)
        /\ verificationSubmissions st' = <[i := new]> (verificationSubmissions st)
        /\ Submission.status new = "rejected"
        /\ Submission.reason new = field body "reason"
        /\ Submission.comments new = field body "comments"
        /\ Submission.requiredActions new
           = (if truthy (field body "requiredActions")
              then field body "requiredActions" else VArr [])
        /\ Submission.rejectedAt new = VStr (isoString e 0)
        /\ Submission.creditsGenerated new = Submission.creditsGenerated old
        /\ Submission.qualityScore new = Submission.qualityScore old
        /\ Submission.approvedAt new = Submission.approvedAt old
        /\ reviewed_of old new).
Proof.
  destruct (review_outcome (rejected e body) id st) as (Hiff & Habsent & Hpresent).
  simpl in *. unfold reject_submission. split; [exact Hiff|]. split.
  - intros Hnot. by rewrite (Habsent Hnot).
  - intros Hin. destruct (Hpresent Hin) as (i & old & Hi & Hid & Hby & ->).
    exists i, old, (rejected e body old). by repeat split.
Qed.

(** X8. Asking for more data fails with the 404 "Submission not found" if
    and only if no submission carries the id.  Otherwise it succeeds
    whatever the status was: the status becomes "more_data_requested",
    requestedData is the supplied one or the empty array, the comments are
    stored as supplied, and an earlier approval or rejection stays
    recorded on the submission. *)
Theorem request_more_unconditional (E : engine) (e : env) (id : string) (body : obj)
    (st : store) :
  let st' := fst (handle E e (PostRequestMore id body) st) in
  let r := snd (handle E e (PostRequestMore id body) st) in
  (is_success r = false <-> VStr id ∉ ids_of VerificationSubmission st)
  /\ (VStr id ∉ ids_of VerificationSubmission st ->
      r = Failure 404 "Submission not found" /\ st' = st)
  /\ (VStr id ∈ ids_of VerificationSubmission st ->
      exists i old new,
        verificationSubmissions st !! i = Some old
        /\ Submission.id old = id
        /\ findById (verificationSubmissions st) (VStr id) = Some old
        /\ r = Success 200 (PSubmission new)
        /\ verificationSubmissions st' = <[i := new]> (verificationSubmissions st)
        /\ Submission.status new = "more_data_requested"
        /\ Submission.requestedData new
           = (if truthy (field body "requestedData")
              then field body "requestedData" else VArr [])
        /\ Submission.comments new = field body "comments"
        /\ Submission.requestedAt new = VStr (isoString e 0)
        /\ Submission.creditsGenerated new = Submission.creditsGenerated old
        /\ Submission.approvedAt new = Submission.approvedAt old
        /\ Submission.reason new = Submission.reason old
        /\ Submission.rejectedAt new = Submission.rejectedAt old
        /\ reviewed_of old new).
Proof.
  destruct (review_outcome (more_requested e body) id st) as (Hiff & Habsent & Hpresent).
  simpl in *. unfold request_more. split; [exact Hiff|]. split.
  - intros Hnot. by rewrite (Habsent Hnot).
  - intros Hin. destruct (Hpresent Hin) as (i & old & Hi & Hid & Hby & ->).
    exists i, old, (more_requested e body old). by repeat split.
Qed.

(* ===================================================================== *)
(** ** How the workflow composes *)
(* ===================================================================== *)

Lemma findById_insert_found {A} `{HasId A} (l : list A) (id : value) (i : nat)
    (old new : A) :
  findIndex l id = Some (i, old) ->
  strict_eq (item_id new) id = true ->
  findById (<[i := new]> l) id = Some new.
Proof.
  intros (Hi & _ & Hfirst)%findIndex_Some Hnew.
  apply findById_Some. exists i. apply findIndex_Some. split; [|split].
  - apply list_lookup_insert_eq. by eapply lookup_lt_Some.
  - exact Hnew.
  - intros j y Hy Hlt. rewrite list_lookup_insert_ne in Hy by lia. eauto.
Qed.

Lemma findById_app_fresh {A} `{HasId A} (l : list A) (id : value) (x : A) :
  findIndex l id = None ->
  strict_eq (item_id x) id = true ->
  findIndex (l ++ [x]) id = Some (length l, x).
Proof.
  intros Hnone Hx. apply findIndex_Some. split; [|split].
  - by rewrite lookup_app_r, Nat.sub_diag by lia.
  - exact Hx.
  - intros j y Hy Hlt. rewrite lookup_app_l in Hy by done.
    apply findIndex_None in Hnone. rewrite Forall_forall in Hnone.
    apply Hnone. by eapply list_elem_of_lookup_2.
Qed.

(** What a successful credit request tells about the store. *)
Lemma generate_success_inv (E : engine) (e : env) (body : obj) (st : store)
    (credit : Credit.t) :
  snd (handle E e (PostCreditsGenerate body) st) = Success 201 (PCredit credit) ->
  truthy (field body "projectId") = true
  /\ truthy (field body "verificationId") = true
  /\ truthy (field body "creditsAmount") = true
  /\ is_Some (findById (projects st) (field body "projectId"))
  /\ (exists v, findById (verificationSubmissions st) (field body "verificationId") = Some v
                /\ Submission.status v = "approved")
  /\ fst (handle E e (PostCreditsGenerate body) st)
     = with_carbonCredits (carbonCredits st ++ [credit]) st.
Proof.
  simpl. unfold generate_credit. intros Hr.
  repeat case_match; simpl in *; try discriminate.
  match goal with H : orb (orb _ _) _ = false |- _ =>
    apply orb_false_iff in H as [[Hp Hv]%orb_false_iff Ha];
    apply negb_false_iff in Hp, Hv, Ha end.
  injection Hr as <-. repeat split; try done.
  eexists. split; [reflexivity|].
  match goal with H : negb _ = false |- _ =>
    apply negb_false_iff in H; by apply String.eqb_eq in H end.
Qed.

(** X9. A credit outlives the approval it was issued on.  After a credit
    was issued on a verification, rejecting that verification succeeds and
    leaves the credit in the store; only a further credit request on the
    same verification is then refused. *)
Theorem credit_survives_rejection (E : engine) (e1 e2 e3 : env) (body rbody : obj)
    (vid : string) (st : store) (credit : Credit.t) :
  field body "verificationId" = VStr vid ->
  snd (handle E e1 (PostCreditsGenerate body) st) = Success 201 (PCredit credit) ->
  let st1 := fst (handle E e1 (PostCreditsGenerate body) st) in
  let st2 := fst (handle E e2 (PostReject vid rbody) st1) in
  is_success (snd (handle E e2 (PostReject vid rbody) st1)) = true
  /\ carbonCredits st2 = carbonCredits st ++ [credit]
  /\ (exists s, findById (verificationSubmissions st2) (VStr vid) = Some s
                /\ Submission.status s = "rejected")
  /\ handle E e3 (PostCreditsGenerate body) st2
     = (st2, Failure 400 "Valid approved verification required").
Proof.
  intros Hvid Hr.
  destruct (generate_success_inv E e1 body st credit Hr)
    as (Hp & Hv & Ha & [project Hproject] & (v & Hfind & Happroved) & Hst1).
  intros st1 st2. subst st1 st2. rewrite Hst1. rewrite Hvid in Hfind.
  apply findById_Some in Hfind as (i & Hfind). simpl.
  unfold reject_submission. simpl. rewrite Hfind. simpl.
  assert (findById (<[i := rejected e2 rbody v]> (verificationSubmissions st)) (VStr vid)
          = Some (rejected e2 rbody v)) as Hnew.
  { eapply findById_insert_found; [exact Hfind|].
    apply findIndex_Some in Hfind as (_ & Hid & _). exact Hid. }
  split; [reflexivity|]. split; [reflexivity|]. split; [eauto|].
  unfold generate_credit. rewrite Hp, Hv, Ha. simpl. rewrite Hproject, Hvid.
  simpl. by rewrite Hnew.
Qed.

(** The credit issued in [issued_store] survives the rejection of
    SUB-0c0c0c0c. *)
Lemma credit_survives_rejection_witness :
  let body := credit_request (VNum 1000%float) in
  let e1 := host "0e0e0e0e-5555-4555-8555-555555555555" 1700000000400%float in
  let st1 := fst (handle integer_engine e1 (PostCreditsGenerate body) approved_store) in
  let st2 := fst (handle integer_engine later (PostReject "SUB-0c0c0c0c" rejection) st1) in
  map Credit.id (carbonCredits st2) = ["CRD-0e0e0e0e"]
  /\ handle integer_engine later (PostCreditsGenerate body) st2
     = (st2, Failure 400 "Valid approved verification required").
Proof.
  intros body e1 st1 st2.
  destruct (snd (handle integer_engine e1 (PostCreditsGenerate body) approved_store))
    as [code [| | | |credit| | |]|] eqn:Hr; try (vm_compute in Hr; discriminate).
  assert (code = 201) as -> by (vm_compute in Hr; congruence).
  destruct (credit_survives_rejection integer_engine e1 later later body rejection
              "SUB-0c0c0c0c" approved_store credit eq_refl Hr)
    as (_ & Hcredits & _ & Hrefused).
  split; [|exact Hrefused]. vm_compute. reflexivity.
Defined.

(** X10. From an upload to a credit.  When the upload exists and the id
    drawn for the submission is not yet in use, submitting the upload,
    approving that submission and then requesting a credit on it for any
    existing project (the handler does not ask that it be the upload's
    project) with a truthy amount succeeds and appends the credit. *)
Theorem upload_to_credit (E : engine) (e1 e2 e3 : env) (uid : string)
    (abody body : obj) (st : store) :
  VStr uid ∈ ids_of DataUpload st ->
  VStr (fresh_id "SUB-" e1) ∉ ids_of VerificationSubmission st ->
  field body "verificationId" = VStr (fresh_id "SUB-" e1) ->
  truthy (field body "projectId") = true ->
  truthy (field body "creditsAmount") = true ->
  is_Some (findById (projects st) (field body "projectId")) ->
  let st1 := fst (handle E e1 (PostVerify uid) st) in
  let st2 := fst (handle E e2 (PostApprove (fresh_id "SUB-" e1) abody) st1) in
  exists credit,
    handle E e3 (PostCreditsGenerate body) st2
    = (with_carbonCredits (carbonCredits st ++ [credit]) st2,
       Success 201 (PCredit credit))
    /\ Credit.verificationId credit = VStr (fresh_id "SUB-" e1)
    /\ Credit.creditsAmount credit = field body "creditsAmount".
Proof.
  intros Hupload Hfresh Hvid Hp Ha [project Hproject] st1 st2. subst st1 st2.
  apply present_findIndex in Hupload as (i & upload & Hfind).
  apply absent_findIndex in Hfresh.
  simpl. unfold verify_upload. rewrite Hfind. simpl.
  unfold approve_submission. simpl.
  erewrite findById_app_fresh; [|exact Hfresh|simpl; apply String.eqb_refl].
  simpl. unfold generate_credit. rewrite Hp, Ha, Hvid. simpl.
  rewrite Hproject.
  erewrite findById_insert_found;
    [|apply findById_app_fresh; [exact Hfresh|simpl; apply String.eqb_refl]
     |simpl; apply String.eqb_refl].
  simpl. eexists. repeat split.
Qed.

(** The upload of [uploaded_store] goes all the way to a credit. *)
Lemma upload_to_credit_witness :
  let e1 := host "0c0c0c0c-3333-4333-8333-333333333333" 1700000000200%float in
  let st1 := fst (handle integer_engine e1 (PostVerify "UPL-0b0b0b0b") uploaded_store) in
  let st2 := fst (handle integer_engine later (PostApprove "SUB-0c0c0c0c" approval) st1) in
  exists credit,
    handle integer_engine later (PostCreditsGenerate (credit_request (VNum 1000%float))) st2
    = (with_carbonCredits (carbonCredits uploaded_store ++ [credit]) st2,
       Success 201 (PCredit credit))
    /\ Credit.verificationId credit = VStr "SUB-0c0c0c0c"
    /\ Credit.creditsAmount credit = VNum 1000%float.
Proof.
  apply (upload_to_credit integer_engine
           (host "0c0c0c0c-3333-4333-8333-333333333333" 1700000000200%float)
           later later "UPL-0b0b0b0b" approval (credit_request (VNum 1000%float))
           uploaded_store).
  - vm_compute. apply list_elem_of_singleton. reflexivity.
  - vm_compute. intros Hin. by apply elem_of_nil in Hin.
  - reflexivity.
  - reflexivity.
  - reflexivity.
  - eexists. vm_compute. reflexivity.
Defined.

(* ===================================================================== *)
(** ** Projects, stakeholders and uploads *)
(* ===================================================================== *)

Lemma delete_removes_unique {A} (l : list A) (i : nat) (x : A) :
  NoDup l -> l !! i = Some x -> x ∉ delete i l.
Proof.
  intros Hnodup Hi. rewrite delete_take_drop.
  rewrite <- (take_drop_middle l i x Hi) in Hnodup.
  apply NoDup_app in Hnodup as (_ & Hdisj & Htail).
  apply NoDup_cons in Htail as [Hnotin _].
  intros [Hin | Hin]%elem_of_app; [|done].
  apply (Hdisj x Hin). left.
Qed.

Section Projects.
Variable E : engine.

(** X11. Registering a project needs a truthy name, category and location:
    without one of them the reply is the 400 and nothing is stored.  With
    them the project is appended with the id PRJ- followed by the first
    eight characters of the uuid, status "active", an empty stakeholder
    list unless one is supplied, and, if that id was not in use, GET
    /projects/:id with it returns the project just stored. *)
Theorem project_created_then_found (e : env) (body : obj) (st : store) :
  (truthy (field body "name") = false \/ truthy (field body "category") = false
   \/ truthy (field body "location") = false ->
   handle E e (PostProjects body) st
   = (st, Failure 400 "Name, category, and location are required"))
  /\ (truthy (field body "name") = true ->
      truthy (field body "category") = true ->
      truthy (field body "location") = true ->
      exists project,
        handle E e (PostProjects body) st
        = (with_projects (projects st ++ [project]) st, Success 201 (PObject project))
        /\ field project "id" = VStr (fresh_id "PRJ-" e)
        /\ field project "status" = VStr "active"
        /\ field project "name" = field body "name"
        /\ field project "category" = field body "category"
        /\ field project "location" = field body "location"
        /\ field project "stakeholders"
           = (if truthy (field body "stakeholders")
              then field body "stakeholders" else VArr [])
        /\ (VStr (fresh_id "PRJ-" e) ∉ ids_of Project st ->
            get_project (fresh_id "PRJ-" e) (fst (handle E e (PostProjects body) st))
            = Found 200 project)).
Proof.
  simpl. unfold post_projects. split.
  - intros [-> | [-> | ->]]; simpl; by rewrite ?orb_true_r.
  - intros -> -> ->. simpl. eexists. split; [reflexivity|].
    repeat split.
    intros Hfresh. unfold get_project, findById. simpl.
    erewrite findById_app_fresh; [reflexivity|by apply absent_findIndex|].
    unfold item_id, obj_id. simpl. apply String.eqb_refl.
Qed.

(** X12. PUT /projects/:id answers the 404 when no project carries the id.
    Otherwise it replaces the first such project, at its index, by the
    merge of the project and the request body: every property of the body
    overrides the stored one (the id included), every other property is
    kept, and updatedAt is set by the server whatever the body says. *)
Theorem put_project_merges (e : env) (id : string) (body : obj) (st : store) :
  (VStr id ∉ ids_of Project st ->
   handle E e (PutProject id body) st = (st, Failure 404 "Project not found"))
  /\ (VStr id ∈ ids_of Project st ->
      exists i old new,
        projects st !! i = Some old
        /\ field old "id" = VStr id
        /\ handle E e (PutProject id body) st
           = (with_projects (<[i := new]> (projects st)) st, Success 200 (PObject new))
        /\ field new "updatedAt" = VStr (isoString e 0)
        /\ (forall k, k <> "updatedAt" ->
              field new k = match body !! k with
                            | Some v => v
                            | None => field old k
                            end)).
Proof.
  simpl. unfold put_project. split.
  - intros Hnot. by rewrite (absent_findIndex _ _ Hnot).
  - intros Hin. apply present_findIndex in Hin as (i & old & Hfind). rewrite Hfind.
    apply findIndex_Some in Hfind as (Hi & Hid & _). apply strict_eq_str in Hid.
    exists i, old. eexists. split; [exact Hi|]. split; [exact Hid|].
    split; [reflexivity|]. split.
    + unfold field. by rewrite lookup_insert_eq.
    + intros k Hk. unfold field, spread. rewrite lookup_insert_ne by done.
      destruct (body !! k) as [v|] eqn:Hbody.
      * by rewrite (lookup_union_Some_l _ _ _ _ Hbody).
      * by rewrite lookup_union_r.
Qed.

(** X13. Deleting a project that exists removes the first project with the
    id and nothing else: the other projects keep their order, one record
    fewer is held, and the uploads, submissions, credits, stakeholders and
    listings, including those of the deleted project, stay as they are.
    If project ids were distinct, the id is then absent. *)
Theorem delete_project_existing (e : env) (id : string) (st : store) :
  VStr id ∈ ids_of Project st ->
  let st' := fst (handle E e (DeleteProject id) st) in
  exists i project,
    projects st !! i = Some project
    /\ field project "id" = VStr id
    /\ (forall j q, projects st !! j = Some q -> j < i -> field q "id" <> VStr id)
    /\ handle E e (DeleteProject id) st
       = (with_projects (delete i (projects st)) st,
          Success 200 (PMessage "Project deleted successfully"))
    /\ record_count Project st' + 1 = record_count Project st
    /\ (forall k, k <> Project -> ids_of k st' = ids_of k st)
    /\ (NoDup (ids_of Project st) -> VStr id ∉ ids_of Project st').
Proof.
  intros Hin. simpl. unfold delete_project.
  apply present_findIndex in Hin as (i & project & Hfind). rewrite Hfind. simpl.
  apply findIndex_Some in Hfind as (Hi & Hid & Hfirst). apply strict_eq_str in Hid.
  exists i, project. split; [exact Hi|]. split; [exact Hid|]. split.
  { intros j q Hq Hlt Heq. specialize (Hfirst j q Hq Hlt).
    unfold item_id, obj_id in Hfirst. rewrite Heq in Hfirst. simpl in Hfirst.
    by rewrite String.eqb_refl in Hfirst. }
  split; [reflexivity|]. split.
  { unfold record_count. simpl. rewrite !length_map, length_delete by eauto.
    apply lookup_lt_Some in Hi. lia. }
  split; [by intros []|].
  intros Hnodup. change (map item_id (delete i (projects st)))
    with (item_id <$> delete i (projects st)).
  rewrite list_fmap_delete. apply delete_removes_unique; [exact Hnodup|].
  rewrite list_lookup_fmap, Hi. simpl. by f_equal.
Qed.

(** X14. Deleting an upload that exists removes the first upload with the
    id and nothing else: one upload fewer is held, and the submissions made
    from it stay in the store, as do all other records. *)
Theorem delete_upload_existing (e : env) (id : string) (st : store) :
  VStr id ∈ ids_of DataUpload st ->
  let st' := fst (handle E e (DeleteUpload id) st) in
  exists i upload,
    dataUploads st !! i = Some upload
    /\ Upload.id upload = id
    /\ (forall j u, dataUploads st !! j = Some u -> j < i -> Upload.id u <> id)
    /\ handle E e (DeleteUpload id) st
       = (with_dataUploads (delete i (dataUploads st)) st,
          Success 200 (PMessage "Upload deleted successfully"))
    /\ record_count DataUpload st' + 1 = record_count DataUpload st
    /\ verificationSubmissions st' = verificationSubmissions st
    /\ (forall k, k <> DataUpload -> ids_of k st' = ids_of k st)
    /\ (NoDup (ids_of DataUpload st) -> VStr id ∉ ids_of DataUpload st').
Proof.
  intros Hin. simpl. unfold delete_upload.
  apply present_findIndex in Hin as (i & upload & Hfind). rewrite Hfind. simpl.
  apply findIndex_Some in Hfind as (Hi & Hid & Hfirst). apply strict_eq_str in Hid.
  injection Hid as Hid.
  exists i, upload. split; [exact Hi|]. split; [exact Hid|]. split.
  { intros j u Hu Hlt Heq. specialize (Hfirst j u Hu Hlt).
    unfold item_id, upload_id in Hfirst. rewrite Heq in Hfirst. simpl in Hfirst.
    by rewrite String.eqb_refl in Hfirst. }
  split; [reflexivity|]. split.
  { unfold record_count. simpl. rewrite !length_map, length_delete by eauto.
    apply lookup_lt_Some in Hi. lia. }
  split; [reflexivity|]. split; [by intros []|].
  intros Hnodup. change (map item_id (delete i (dataUploads st)))
    with (item_id <$> delete i (dataUploads st)).
  rewrite list_fmap_delete. apply delete_removes_unique; [exact Hnodup|].
  rewrite list_lookup_fmap, Hi. simpl. unfold item_id, upload_id. by rewrite Hid.
Qed.

End Projects.

(** The project of [approved_store] is deleted; its upload, submission and
    approval stay. *)
Lemma delete_project_existing_witness :
  let st' := fst (handle integer_engine later (DeleteProject "PRJ-0a0a0a0a") approved_store) in
  record_count Project st' = 0
  /\ record_count DataUpload st' = 1
  /\ record_count VerificationSubmission st' = 1.
Proof.
  intros st'.
  destruct (delete_project_existing integer_engine later "PRJ-0a0a0a0a" approved_store)
    as (i & project & _ & _ & _ & _ & Hcount & Hothers & _).
  - vm_compute. apply list_elem_of_singleton. reflexivity.
  - fold st' in Hcount, Hothers. split; [|split].
    + assert (record_count Project approved_store = 1) as Hone by reflexivity. lia.
    + unfold record_count. by rewrite (Hothers DataUpload).
    + unfold record_count. by rewrite (Hothers VerificationSubmission).
Defined.

(* ===================================================================== *)
(** ** The order of numbers *)
(* ===================================================================== *)

(** The comparison of binary64 numbers is a total preorder away from NaN;
    the facts are read on the specification of the primitive operations. *)

Lemma SFcompare_refl (x : spec_float) :
  x <> S754_nan -> SFcompare x x = Some Eq.
Proof.
  destruct x as [s|s| |s m e]; simpl; try done.
  - by destruct s.
  - intros _. rewrite Z.compare_refl.
    change (Pos.compare_cont Eq m m) with (Pos.compare m m).
    rewrite Pos.compare_refl. by destruct s.
Qed.

Lemma SFcompare_antisym (x y : spec_float) :
  SFcompare y x = CompOpp <$> SFcompare x y.
Proof.
  destruct x as [sx|sx| |sx mx ex], y as [sy|sy| |sy my ey]; simpl;
    try reflexivity; try (by destruct sx); try (by destruct sy);
    try (by destruct sx, sy).
  change (Pos.compare_cont Eq my mx) with (Pos.compare my mx).
  change (Pos.compare_cont Eq mx my) with (Pos.compare mx my).
  rewrite (Z.compare_antisym ex ey), (Pos.compare_antisym mx my).
  destruct sx, sy; simpl; try reflexivity;
    destruct (ex ?= ey)%Z; simpl; try reflexivity;
    by destruct (mx ?= my)%positive.
Qed.

Lemma SFltb_negb_SFleb (x y : spec_float) :
  x <> S754_nan -> y <> S754_nan -> SFltb x y = negb (SFleb y x).
Proof.
  intros Hx Hy. unfold SFltb, SFleb. rewrite (SFcompare_antisym x y).
  destruct (SFcompare x y) as [[]|] eqn:Hc; simpl; try reflexivity.
  exfalso. destruct x, y; simpl in Hc; try done.
Qed.

Ltac order_cases :=
  repeat match goal with
  | H : context [(?a ?= ?b)%Z] |- _ =>
      let c := fresh in destruct (Z.compare_spec a b) as [c|c|c]
  | |- context [(?a ?= ?b)%Z] =>
      let c := fresh in destruct (Z.compare_spec a b) as [c|c|c]
  | H : context [(?a ?= ?b)%positive] |- _ =>
      let c := fresh in destruct (Pos.compare_spec a b) as [c|c|c]
  | |- context [(?a ?= ?b)%positive] =>
      let c := fresh in destruct (Pos.compare_spec a b) as [c|c|c]
  end.

Lemma SFleb_trans (x y z : spec_float) :
  SFleb x y = true -> SFleb y z = true -> SFleb x z = true.
Proof.
  unfold SFleb.
  destruct x as [sx|sx| |sx mx ex], y as [sy|sy| |sy my ey], z as [sz|sz| |sz mz ez];
    simpl; try done;
    try (destruct sx; done); try (destruct sy; done); try (destruct sz; done);
    try (destruct sx, sy; done); try (destruct sy, sz; done);
    try (destruct sx, sz; done);
    try (destruct sx, sy, sz; done).
  change (Pos.compare_cont Eq mx my) with (Pos.compare mx my).
  change (Pos.compare_cont Eq my mz) with (Pos.compare my mz).
  change (Pos.compare_cont Eq mx mz) with (Pos.compare mx mz).
  destruct sx, sy, sz; try done; order_cases; simpl; try done; lia.
Qed.

(** The same facts on the primitive numbers. *)

Lemma is_nan_spec (x : float) : PrimFloat.is_nan x = true <-> Prim2SF x = S754_nan.
Proof.
  unfold is_nan. rewrite FloatAxioms.eqb_spec. unfold SFeqb. split.
  - intros Hx. destruct (Prim2SF x) eqn:Hsf; try reflexivity;
      rewrite SFcompare_refl in Hx by done; done.
  - by intros ->.
Qed.

Lemma not_nan_spec (x : float) : PrimFloat.is_nan x = false <-> Prim2SF x <> S754_nan.
Proof. rewrite <- is_nan_spec. by destruct (is_nan x). Qed.

Lemma leb_nan_l (x y : float) : PrimFloat.is_nan x = true -> PrimFloat.leb x y = false.
Proof. intros Hx%is_nan_spec. by rewrite FloatAxioms.leb_spec, Hx. Qed.

Lemma leb_nan_r (x y : float) : PrimFloat.is_nan y = true -> PrimFloat.leb x y = false.
Proof.
  intros Hy%is_nan_spec. rewrite FloatAxioms.leb_spec, Hy. unfold SFleb.
  by destruct (Prim2SF x).
Qed.

Lemma ltb_nan_l (x y : float) : PrimFloat.is_nan x = true -> PrimFloat.ltb x y = false.
Proof. intros Hx%is_nan_spec. by rewrite FloatAxioms.ltb_spec, Hx. Qed.

Lemma ltb_negb_leb (x y : float) :
  PrimFloat.is_nan x = false -> PrimFloat.is_nan y = false ->
  PrimFloat.ltb x y = negb (PrimFloat.leb y x).
Proof.
  intros Hx%not_nan_spec Hy%not_nan_spec.
  rewrite FloatAxioms.ltb_spec, FloatAxioms.leb_spec. by apply SFltb_negb_SFleb.
Qed.

Lemma leb_trans (x y z : float) :
  PrimFloat.leb x y = true -> PrimFloat.leb y z = true -> PrimFloat.leb x z = true.
Proof. rewrite !FloatAxioms.leb_spec. apply SFleb_trans. Qed.

Lemma ltb_leb (x y : float) : PrimFloat.ltb x y = true -> PrimFloat.leb x y = true.
Proof.
  rewrite FloatAxioms.ltb_spec, FloatAxioms.leb_spec. unfold SFltb, SFleb.
  by destruct (SFcompare _ _) as [[]|].
Qed.

Lemma leb_refl (x : float) : PrimFloat.is_nan x = false -> PrimFloat.leb x x = true.
Proof.
  intros Hx%not_nan_spec. rewrite FloatAxioms.leb_spec. unfold SFleb.
  by rewrite SFcompare_refl.
Qed.

Lemma is_neg_zero_spec (x : float) : is_neg_zero x = true -> Prim2SF x = S754_zero true.
Proof.
  unfold is_neg_zero. rewrite FloatAxioms.classify_spec. unfold SF64classify.
  destruct (Prim2SF x) as [[]|[]| |[] m e]; try done;
    unfold SFclassify; by destruct (Z.eqb (Z.pos (digits2_pos m)) prec).
Qed.

Lemma is_pos_zero_spec (x : float) : is_pos_zero x = true -> Prim2SF x = S754_zero false.
Proof.
  unfold is_pos_zero. rewrite FloatAxioms.classify_spec. unfold SF64classify.
  destruct (Prim2SF x) as [[]|[]| |[] m e]; try done;
    unfold SFclassify; by destruct (Z.eqb (Z.pos (digits2_pos m)) prec).
Qed.

Lemma neg_zero_leb_pos_zero (x y : float) :
  is_neg_zero x && is_pos_zero y = true -> PrimFloat.leb x y = true.
Proof.
  intros [Hx%is_neg_zero_spec Hy%is_pos_zero_spec]%andb_true_iff.
  by rewrite FloatAxioms.leb_spec, Hx, Hy.
Qed.

Lemma leb_infinity_l (x : float) : PrimFloat.leb infinity x = true -> x = infinity.
Proof.
  rewrite FloatAxioms.leb_spec.
  change (Prim2SF infinity) with (S754_infinity false).
  intros Hle. apply Prim2SF_inj. change (Prim2SF infinity) with (S754_infinity false).
  destruct (Prim2SF x) as [s|[]| |s m e]; try done.
Qed.

Lemma leb_neg_infinity_r (x : float) :
  PrimFloat.leb x neg_infinity = true -> x = neg_infinity.
Proof.
  rewrite FloatAxioms.leb_spec.
  change (Prim2SF neg_infinity) with (S754_infinity true).
  intros Hle. apply Prim2SF_inj.
  change (Prim2SF neg_infinity) with (S754_infinity true).
  destruct (Prim2SF x) as [s|[]| |[] m e]; try done.
Qed.

(** [Math.min] and [Math.max] away from NaN. *)
Lemma min_from_spec (l : list float) (lowest : float) :
  PrimFloat.is_nan lowest = false ->
  Forall (fun x => PrimFloat.is_nan x = false) l ->
  PrimFloat.is_nan (min_from lowest l) = false
  /\ PrimFloat.leb (min_from lowest l) lowest = true
  /\ Forall (fun x => PrimFloat.leb (min_from lowest l) x = true) l
  /\ (min_from lowest l = lowest \/ min_from lowest l ∈ l).
Proof.
  revert lowest. induction l as [|x l IH]; intros lowest Hlow Hall; simpl.
  - split; [exact Hlow|]. split; [by apply leb_refl|]. split; [constructor | by left].
  - apply Forall_cons in Hall as [Hx Hall]. rewrite Hx.
    assert (forall lowest',
              PrimFloat.is_nan lowest' = false ->
              PrimFloat.leb lowest' lowest = true ->
              PrimFloat.leb lowest' x = true ->
              (lowest' = lowest \/ lowest' = x) ->
              PrimFloat.is_nan (min_from lowest' l) = false
              /\ PrimFloat.leb (min_from lowest' l) lowest = true
              /\ Forall (fun y => PrimFloat.leb (min_from lowest' l) y = true) (x :: l)
              /\ (min_from lowest' l = lowest \/ min_from lowest' l ∈ x :: l)) as Hnext.
    { intros lowest' Hnn Hle Hlex Hwhich.
      destruct (IH lowest' Hnn Hall) as (Hr & Hrl & Hrall & Hrin).
      split; [exact Hr|]. split; [by eapply leb_trans|].
      split; [constructor; [by eapply leb_trans | exact Hrall]|].
      destruct Hrin as [-> | Hin]; [|right; by right].
      destruct Hwhich as [-> | ->]; [by left | right; left]. }
    destruct (is_neg_zero x && is_pos_zero lowest) eqn:Hzero.
    { apply Hnext; [exact Hx | by apply neg_zero_leb_pos_zero | by apply leb_refl | by right]. }
    destruct (PrimFloat.ltb x lowest) eqn:Hlt.
    { apply Hnext; [exact Hx | by apply ltb_leb | by apply leb_refl | by right]. }
    apply Hnext; [exact Hlow | by apply leb_refl | | by left].
    rewrite ltb_negb_leb in Hlt by done. by apply negb_false_iff in Hlt.
Qed.

Lemma max_from_spec (l : list float) (highest : float) :
  PrimFloat.is_nan highest = false ->
  Forall (fun x => PrimFloat.is_nan x = false) l ->
  PrimFloat.is_nan (max_from highest l) = false
  /\ PrimFloat.leb highest (max_from highest l) = true
  /\ Forall (fun x => PrimFloat.leb x (max_from highest l) = true) l
  /\ (max_from highest l = highest \/ max_from highest l ∈ l).
Proof.
  revert highest. induction l as [|x l IH]; intros highest Hhigh Hall; simpl.
  - split; [exact Hhigh|]. split; [by apply leb_refl|]. split; [constructor | by left].
  - apply Forall_cons in Hall as [Hx Hall]. rewrite Hx.
    assert (forall highest',
              PrimFloat.is_nan highest' = false ->
              PrimFloat.leb highest highest' = true ->
              PrimFloat.leb x highest' = true ->
              (highest' = highest \/ highest' = x) ->
              PrimFloat.is_nan (max_from highest' l) = false
              /\ PrimFloat.leb highest (max_from highest' l) = true
              /\ Forall (fun y => PrimFloat.leb y (max_from highest' l) = true) (x :: l)
              /\ (max_from highest' l = highest \/ max_from highest' l ∈ x :: l)) as Hnext.
    { intros highest' Hnn Hle Hlex Hwhich.
      destruct (IH highest' Hnn Hall) as (Hr & Hrl & Hrall & Hrin).
      split; [exact Hr|]. split; [by eapply leb_trans|].
      split; [constructor; [by eapply leb_trans | exact Hrall]|].
      destruct Hrin as [-> | Hin]; [|right; by right].
      destruct Hwhich as [-> | ->]; [by left | right; left]. }
    destruct (is_pos_zero x && is_neg_zero highest) eqn:Hzero.
    { apply Hnext; [exact Hx | | by apply leb_refl | by right].
      apply neg_zero_leb_pos_zero. by rewrite andb_comm. }
    destruct (PrimFloat.ltb highest x) eqn:Hlt.
    { apply Hnext; [exact Hx | by apply ltb_leb | by apply leb_refl | by right]. }
    apply Hnext; [exact Hhigh | by apply leb_refl | | by left].
    rewrite ltb_negb_leb in Hlt by done. by apply negb_false_iff in Hlt.
Qed.

(** X16. When at least one listing is active and no active price is NaN,
    the reported minPrice and maxPrice are prices of active listings, and
    every active price lies between them. *)
Theorem price_extremes (st : store) :
  active_prices st <> [] ->
  Forall (fun p => PrimFloat.is_nan p = false) (active_prices st) ->
  minPrice (priceStats st) ∈ active_prices st
  /\ maxPrice (priceStats st) ∈ active_prices st
  /\ forall p, p ∈ active_prices st ->
       PrimFloat.leb (minPrice (priceStats st)) p = true
       /\ PrimFloat.leb p (maxPrice (priceStats st)) = true.
Proof.
  intros Hsome Hall. unfold priceStats. simpl. rewrite prices_are_active_prices.
  destruct (active_prices st) as [|p0 ps] eqn:Hprices; [done|]. simpl Nat.ltb. cbv iota.
  destruct (min_from_spec (p0 :: ps) infinity eq_refl Hall) as (_ & _ & Hmin & Hminin).
  destruct (max_from_spec (p0 :: ps) neg_infinity eq_refl Hall) as (_ & _ & Hmax & Hmaxin).
  fold (math_min (p0 :: ps)) in *. fold (math_max (p0 :: ps)) in *.
  rewrite Forall_forall in Hmin, Hmax.
  split; [|split].
  - destruct Hminin as [Heq | Hin]; [|exact Hin].
    pose proof (Hmin p0 ltac:(left)) as Hle. rewrite Heq in Hle.
    apply leb_infinity_l in Hle. rewrite Heq, <- Hle. left.
  - destruct Hmaxin as [Heq | Hin]; [|exact Hin].
    pose proof (Hmax p0 ltac:(left)) as Hle. rewrite Heq in Hle.
    apply leb_neg_infinity_r in Hle. rewrite Heq, <- Hle. left.
  - intros p Hp. split; [by apply Hmin | by apply Hmax].
Qed.

(** The listings of [listed_store], at 5, 15 and 25. *)
Lemma price_extremes_witness :
  minPrice (priceStats listed_store) ∈ active_prices listed_store
  /\ maxPrice (priceStats listed_store) ∈ active_prices listed_store
  /\ forall p, p ∈ active_prices listed_store ->
       PrimFloat.leb (minPrice (priceStats listed_store)) p = true
       /\ PrimFloat.leb p (maxPrice (priceStats listed_store)) = true.
Proof.
  apply (price_extremes listed_store).
  - vm_compute. discriminate.
  - vm_compute. repeat constructor.
Defined.

(* ===================================================================== *)
(** ** Price statistics and browsing *)
(* ===================================================================== *)

Lemma bucket_of_number (p : float) :
  PrimFloat.is_nan p = false ->
  PrimFloat.ltb p 10%float = negb (PrimFloat.leb 10%float p)
  /\ PrimFloat.ltb p 20%float = negb (PrimFloat.leb 20%float p)
  /\ (PrimFloat.leb 20%float p = true -> PrimFloat.leb 10%float p = true).
Proof.
  intros Hp. split; [by apply ltb_negb_leb|]. split; [by apply ltb_negb_leb|].
  apply leb_trans. reflexivity.
Qed.

Lemma buckets_count (prices : list float) :
  length (filter (fun p => PrimFloat.ltb p 10%float = true) prices)
  + length (filter (fun p => PrimFloat.leb 10%float p && PrimFloat.ltb p 20%float = true)
                   prices)
  + length (filter (fun p => PrimFloat.leb 20%float p = true) prices)
  + length (filter (fun p => PrimFloat.is_nan p = true) prices)
  = length prices.
Proof.
  induction prices as [|p prices IH]; [reflexivity|].
  rewrite !filter_cons.
  destruct (PrimFloat.is_nan p) eqn:Hnan.
  - rewrite (ltb_nan_l p 10%float Hnan), (ltb_nan_l p 20%float Hnan),
      (leb_nan_r 10%float p Hnan), (leb_nan_r 20%float p Hnan).
    simpl. repeat case_decide; try done. simpl. lia.
  - destruct (bucket_of_number p Hnan) as (-> & -> & Himp).
    destruct (PrimFloat.leb 10%float p), (PrimFloat.leb 20%float p); simpl;
      repeat case_decide; try done; simpl; try lia.
Qed.

(** X17. The three buckets of the histogram and the prices that are NaN
    account for every active listing exactly once: low + medium + high
    falls short of totalListings by the number of NaN prices, and equals
    it when every active price is a number. *)
Theorem histogram_counts (st : store) :
  low (priceRange (priceStats st)) + medium (priceRange (priceStats st))
  + high (priceRange (priceStats st))
  + length (filter (fun p => PrimFloat.is_nan p = true) (active_prices st))
  = totalListings (priceStats st).
Proof.
  unfold priceStats. simpl.
  rewrite <- (length_map Listing.price
                (filter (fun l => is_active l = true) (marketplaceListings st))).
  rewrite prices_are_active_prices. apply buckets_count.
Qed.

Lemma add_nan_l (x y : float) :
  PrimFloat.is_nan x = true -> PrimFloat.is_nan (x + y)%float = true.
Proof.
  intros Hx%is_nan_spec. apply is_nan_spec.
  by rewrite FloatAxioms.add_spec, Hx.
Qed.

Lemma add_nan_r (x y : float) :
  PrimFloat.is_nan y = true -> PrimFloat.is_nan (x + y)%float = true.
Proof.
  intros Hy%is_nan_spec. apply is_nan_spec.
  rewrite FloatAxioms.add_spec, Hy. unfold SF64add, SFadd. by destruct (Prim2SF x).
Qed.

Lemma div_nan_l (x y : float) :
  PrimFloat.is_nan x = true -> PrimFloat.is_nan (x / y)%float = true.
Proof.
  intros Hx%is_nan_spec. apply is_nan_spec.
  by rewrite FloatAxioms.div_spec, Hx.
Qed.

Lemma sum_nan_acc (l : list float) (acc : float) :
  PrimFloat.is_nan acc = true ->
  PrimFloat.is_nan (fold_left PrimFloat.add l acc) = true.
Proof.
  revert acc. induction l as [|x l IH]; intros acc Hacc; simpl; [exact Hacc|].
  by apply IH, add_nan_l.
Qed.

Lemma sum_nan (l : list float) (acc : float) :
  Exists (fun p => PrimFloat.is_nan p = true) l ->
  PrimFloat.is_nan (fold_left PrimFloat.add l acc) = true.
Proof.
  intros Hex. revert acc. induction Hex as [x l Hx | x l _ IH]; intros acc; simpl.
  - by apply sum_nan_acc, add_nan_r.
  - apply IH.
Qed.

Lemma min_from_nan (l : list float) (lowest : float) :
  Exists (fun p => PrimFloat.is_nan p = true) l -> min_from lowest l = nan.
Proof.
  intros Hex. revert lowest. induction Hex as [x l Hx | x l _ IH]; intros lowest; simpl.
  - by rewrite Hx.
  - destruct (PrimFloat.is_nan x); [reflexivity|]. by repeat case_match.
Qed.

Lemma max_from_nan (l : list float) (highest : float) :
  Exists (fun p => PrimFloat.is_nan p = true) l -> max_from highest l = nan.
Proof.
  intros Hex. revert highest. induction Hex as [x l Hx | x l _ IH]; intros highest; simpl.
  - by rewrite Hx.
  - destruct (PrimFloat.is_nan x); [reflexivity|]. by repeat case_match.
Qed.

(** X18. One active listing whose price is NaN spoils the aggregates: the
    minimum and the maximum are NaN and so is the average, whatever the
    other prices are. *)
Theorem nan_price_spoils_stats (st : store) :
  Exists (fun p => PrimFloat.is_nan p = true) (active_prices st) ->
  minPrice (priceStats st) = nan
  /\ maxPrice (priceStats st) = nan
  /\ PrimFloat.is_nan (averagePrice (priceStats st)) = true.
Proof.
  intros Hex. unfold priceStats. simpl. rewrite prices_are_active_prices.
  destruct (active_prices st) as [|p0 ps] eqn:Hprices; [by apply Exists_nil in Hex|].
  simpl Nat.ltb. cbv iota. split; [by apply min_from_nan|].
  split; [by apply max_from_nan|]. by apply div_nan_l, sum_nan.
Qed.

Section Browsing.
Variable E : engine.

(** X19. A price the engine reads no number from is accepted by the
    listing handler as soon as it is truthy and [price <= 0] is false (as
    for "abc"); the listing is stored with the price NaN, and from then on
    the price statistics report NaN for the minimum, the maximum and the
    average. *)
Theorem unreadable_price_listed (e : env) (id : string) (body : obj) (st : store) :
  VStr id ∈ ids_of CarbonCredit st ->
  truthy (field body "price") = true ->
  js_le E (field body "price") 0%float = false ->
  PrimFloat.is_nan (parseFloat E (field body "price")) = true ->
  let st' := fst (handle E e (PostListCredit id body) st) in
  is_success (snd (handle E e (PostListCredit id body) st)) = true
  /\ (exists listing,
        marketplaceListings st' = marketplaceListings st ++ [listing]
        /\ Listing.status listing = "active"
        /\ PrimFloat.is_nan (Listing.price listing) = true)
  /\ minPrice (priceStats st') = nan
  /\ maxPrice (priceStats st') = nan
  /\ PrimFloat.is_nan (averagePrice (priceStats st')) = true.
Proof.
  intros Hin Hprice Hle Hnan.
  apply present_findIndex in Hin as (i & credit & Hfind).
  assert (findById (carbonCredits st) (VStr id) = Some credit) as Hby
    by (apply findById_Some; eauto).
  assert (exists listing,
            handle E e (PostListCredit id body) st
            = (with_marketplaceListings (marketplaceListings st ++ [listing]) st,
               Success 201 (PListing listing))
            /\ Listing.status listing = "active"
            /\ PrimFloat.is_nan (Listing.price listing) = true)
    as (listing & Hout & Hstatus & Hnanp).
  { simpl. unfold list_credit. rewrite Hby, Hprice, Hle. simpl.
    eexists. split; [reflexivity|]. by split. }
  intros st'. subst st'. rewrite Hout. cbn [fst snd is_success].
  split; [reflexivity|]. split; [by exists listing|].
  apply nan_price_spoils_stats. unfold active_prices.
  cbn [marketplaceListings with_marketplaceListings].
  rewrite filter_app, map_app. apply Exists_app. right.
  rewrite filter_cons, decide_True by exact Hstatus. by left.
Qed.

(** X20. Whatever the query, browsing returns listings of the store in
    store order, with their count; a listing is returned exactly when it
    is active, passes the category test if a category is given, and has a
    price at or above the parsed minPrice and at or below the parsed
    maxPrice when these are given.  The bounds are inclusive. *)
Theorem browse_within_bounds (e : env) (query : obj) (st : store) :
  exists ls,
    handle E e (GetMarketplaceCredits query) st
    = (st, Success 200 (PListings ls (length ls)))
    /\ ls `sublist_of` marketplaceListings st
    /\ forall l,
         l ∈ ls <->
         l ∈ marketplaceListings st
         /\ Listing.status l = "active"
         /\ (truthy (field query "category") = true ->
             in_category st (field query "category") l = true)
         /\ (truthy (field query "minPrice") = true ->
             PrimFloat.leb (parseFloat E (field query "minPrice")) (Listing.price l) = true)
         /\ (truthy (field query "maxPrice") = true ->
             PrimFloat.leb (Listing.price l) (parseFloat E (field query "maxPrice")) = true).
Proof.
  simpl. unfold browse_credits. eexists. split; [reflexivity|]. split.
  - repeat case_match; repeat (etransitivity; [apply sublist_filter|]); reflexivity.
  - intros l.
    assert (is_active l = true <-> Listing.status l = "active") as Hactive
      by apply String.eqb_eq.
    destruct (truthy (field query "category")),
             (truthy (field query "minPrice")),
             (truthy (field query "maxPrice"));
      rewrite ?list_elem_of_filter, Hactive; intuition congruence.
Qed.

(** X21. A minPrice or a maxPrice that is given but reads as no number
    (NaN) empties the result: no listing is returned, not even with the
    other filters absent. *)
Theorem browse_unreadable_bound (e : env) (query : obj) (st : store) :
  truthy (field query "minPrice") = true
  /\ PrimFloat.is_nan (parseFloat E (field query "minPrice")) = true
  \/ truthy (field query "maxPrice") = true
     /\ PrimFloat.is_nan (parseFloat E (field query "maxPrice")) = true ->
  handle E e (GetMarketplaceCredits query) st = (st, Success 200 (PListings [] 0)).
Proof.
  intros Hbound.
  destruct (browse_within_bounds e query st) as (ls & -> & _ & Hls).
  assert (ls = []) as ->; [|reflexivity].
  apply elem_of_nil_inv. intros l Hl. apply Hls in Hl as (_ & _ & _ & Hmin & Hmax).
  destruct Hbound as [[Ht Hnan] | [Ht Hnan]].
  - specialize (Hmin Ht). by rewrite leb_nan_l in Hmin.
  - specialize (Hmax Ht). by rewrite leb_nan_r in Hmax.
Qed.

(** X22. Listing a credit does not look at the listings it already has: a
    credit that was listed can be listed again, and each listing offers
    the credit's whole creditsAmount, so the quantity on offer can exceed
    what was issued. *)
Theorem credit_listed_twice (e1 e2 : env) (id : string) (body1 body2 : obj)
    (p1 p2 : float) (st : store) (credit : Credit.t) :
  findById (carbonCredits st) (VStr id) = Some credit ->
  field body1 "price" = VNum p1 -> PrimFloat.ltb 0%float p1 = true ->
  field body2 "price" = VNum p2 -> PrimFloat.ltb 0%float p2 = true ->
  let st1 := fst (handle E e1 (PostListCredit id body1) st) in
  let st2 := fst (handle E e2 (PostListCredit id body2) st1) in
  exists l1 l2,
    marketplaceListings st2 = marketplaceListings st ++ [l1; l2]
    /\ Listing.creditId l1 = id /\ Listing.creditId l2 = id
    /\ Listing.status l1 = "active" /\ Listing.status l2 = "active"
    /\ Listing.availableQuantity l1 = Credit.creditsAmount credit
    /\ Listing.availableQuantity l2 = Credit.creditsAmount credit.
Proof.
  intros Hcredit Hb1 Hp1 Hb2 Hp2. simpl. unfold list_credit. simpl.
  rewrite Hcredit, Hb1, Hb2. unfold js_le. simpl to_number.
  destruct (positive_price_passes p1 Hp1) as [-> ->].
  destruct (positive_price_passes p2 Hp2) as [-> ->]. simpl.
  rewrite Hcredit. simpl.
  pose proof (findById_id _ _ _ Hcredit) as Hid. apply strict_eq_str in Hid.
  injection Hid as Hid.
  eexists. eexists. split; [by rewrite <- app_assoc|]. by repeat split.
Qed.
End Browsing.

(* ===================================================================== *)
(** ** Portfolio and certificate *)
(* ===================================================================== *)

Section Portfolio.
Variable E : engine.

Lemma generate_success_credit (e : env) (body : obj) (st : store) (credit : Credit.t) :
  snd (handle E e (PostCreditsGenerate body) st) = Success 201 (PCredit credit) ->
  Credit.id credit = fresh_id "CRD-" e
  /\ Credit.projectId credit = field body "projectId"
  /\ Credit.creditsAmount credit = field body "creditsAmount"
  /\ Credit.methodology credit
     = (if truthy (field body "methodology") then field body "methodology"
        else VStr "VM0033")
  /\ Credit.vintage credit
     = (if truthy (field body "vintage") then field body "vintage"
        else VStr (fullYear e))
  /\ Credit.status credit = "active"
  /\ Credit.createdAt credit = isoString e 0.
Proof.
  simpl. unfold generate_credit. intros Hr.
  repeat case_match; simpl in *; try discriminate.
  all: injection Hr as <-.
  all: repeat split; simpl; unfold or_else; try reflexivity;
    repeat match goal with H : truthy _ = _ |- _ => rewrite H; clear H end;
    reflexivity.
Qed.

(** X23. Issuing a credit adds its amount to the portfolio total with the
    [+] of the language, and one to the count of active credits: a number
    on a numeric total is added in binary64, and a string amount, which
    the credit handler accepts, turns the total into the text of the old
    total followed by that string. *)
Theorem portfolio_grows_by_amount (e : env) (body : obj) (st : store)
    (credit : Credit.t) :
  snd (handle E e (PostCreditsGenerate body) st) = Success 201 (PCredit credit) ->
  let st' := fst (handle E e (PostCreditsGenerate body) st) in
  let before := credits_portfolio E st in
  let after := credits_portfolio E st' in
  totalCredits after = js_add E (totalCredits before) (field body "creditsAmount")
  /\ activeCredits after = activeCredits before + 1
  /\ (forall t a,
        totalCredits before = VNum t -> field body "creditsAmount" = VNum a ->
        totalCredits after = VNum (t + a)%float)
  /\ (forall t s,
        totalCredits before = VNum t -> field body "creditsAmount" = VStr s ->
        totalCredits after = VStr (number_to_string E t +:+ s)).
Proof.
  intros Hr.
  destruct (generate_success_inv E e body st credit Hr) as (_ & _ & _ & _ & _ & ->).
  destruct (generate_success_credit e body st credit Hr)
    as (_ & _ & Hamount & _ & _ & Hstatus & _).
  cbn zeta.
  assert (totalCredits (credits_portfolio E
            (with_carbonCredits (carbonCredits st ++ [credit]) st))
          = js_add E (totalCredits (credits_portfolio E st)) (field body "creditsAmount"))
    as Htotal.
  { unfold credits_portfolio. cbn [totalCredits carbonCredits with_carbonCredits].
    by rewrite fold_left_app, <- Hamount. }
  split; [exact Htotal|]. split.
  - unfold credits_portfolio. cbn [activeCredits carbonCredits with_carbonCredits].
    rewrite filter_app, length_app, filter_cons, Hstatus. reflexivity.
  - split; intros t x Ht Hx; rewrite Htotal, Ht, Hx; reflexivity.
Qed.

(** X24. After any sequence of requests the portfolio counts every
    credit as active: activeCredits is the number of stored credits. *)
Theorem portfolio_counts_all_credits (trace : list (env * request)) :
  activeCredits (credits_portfolio E (run E trace empty_store))
  = length (carbonCredits (run E trace empty_store)).
Proof.
  pose proof (credits_stay_complete E trace) as Hall.
  unfold credits_portfolio. cbn [activeCredits]. f_equal.
  unfold credits_complete in Hall. revert Hall.
  generalize (carbonCredits (run E trace empty_store)).
  intros cs. induction cs as [|c cs IH]; intros Hall; [reflexivity|].
  rewrite filter_cons.
  destruct (Hall c ltac:(left)) as (-> & _). simpl. f_equal.
  apply IH. intros c' Hc'. apply Hall. by right.
Qed.

(** X25. The certificate of a credit that was just issued, under an id
    not in use before, is found and repeats the credit: its id, serial
    number, amount, methodology, vintage and creation time, the name of
    the project (or "Unknown Project" when that name is falsy), and a URL
    made of the request's protocol and host and the credit id. *)
Theorem certificate_of_issued_credit (e : env) (protocol : string)
    (req_host : option string) (body : obj) (st : store) (credit : Credit.t) :
  snd (handle E e (PostCreditsGenerate body) st) = Success 201 (PCredit credit) ->
  VStr (fresh_id "CRD-" e) ∉ ids_of CarbonCredit st ->
  let st' := fst (handle E e (PostCreditsGenerate body) st) in
  exists cert project,
    credit_certificate protocol req_host (fresh_id "CRD-" e) st' = Found 200 cert
    /\ findById (projects st) (field body "projectId") = Some project
    /\ cert_creditId cert = fresh_id "CRD-" e
    /\ cert_serialNumber cert = Credit.serialNumber credit
    /\ cert_creditsAmount cert = field body "creditsAmount"
    /\ cert_methodology cert = Credit.methodology credit
    /\ cert_vintage cert = Credit.vintage credit
    /\ cert_issuedDate cert = isoString e 0
    /\ cert_projectName cert
       = (if truthy (field project "name") then field project "name"
          else VStr "Unknown Project")
    /\ cert_certificateUrl cert
       = protocol +:+ "://" +:+ default "undefined" req_host +:+ "/certificates/"
         +:+ fresh_id "CRD-" e +:+ ".pdf".
Proof.
  intros Hr Hfresh.
  destruct (generate_success_inv E e body st credit Hr)
    as (_ & _ & _ & [project Hproject] & _ & ->).
  destruct (generate_success_credit e body st credit Hr)
    as (Hid & Hpid & Hamount & _ & _ & _ & Hcreated).
  cbn zeta. unfold credit_certificate.
  cbn [carbonCredits projects with_carbonCredits].
  unfold findById at 1.
  erewrite findById_app_fresh;
    [|by apply absent_findIndex
     |unfold item_id, credit_id; rewrite Hid; simpl; apply String.eqb_refl].
  simpl. rewrite Hpid, Hproject. eexists. exists project.
  split; [reflexivity|]. simpl. rewrite Hid, Hamount, Hcreated. by repeat split.
Qed.
End Portfolio.

(** The credit of [issued_store] enters the portfolio of [approved_store]. *)
Lemma portfolio_grows_by_amount_witness :
  let e := host "0e0e0e0e-5555-4555-8555-555555555555" 1700000000400%float in
  let body := credit_request (VNum 1000%float) in
  let st' := fst (handle integer_engine e (PostCreditsGenerate body) approved_store) in
  totalCredits (credits_portfolio integer_engine st') = VNum 1000%float
  /\ activeCredits (credits_portfolio integer_engine st') = 1.
Proof.
  intros e body st'.
  destruct (snd (handle integer_engine e (PostCreditsGenerate body) approved_store))
    as [code [| | | |credit| | |]|] eqn:Hr; try (vm_compute in Hr; discriminate).
  assert (code = 201) as -> by (vm_compute in Hr; congruence).
  destruct (portfolio_grows_by_amount integer_engine e body approved_store credit Hr)
    as (_ & Hcount & Hnum & _).
  subst st'. split.
  - rewrite (Hnum 0%float 1000%float); reflexivity.
  - rewrite Hcount. reflexivity.
Defined.

(** The certificate of the credit issued on [approved_store]. *)
Lemma certificate_of_issued_credit_witness :
  let e := host "0e0e0e0e-5555-4555-8555-555555555555" 1700000000400%float in
  let body := credit_request (VNum 1000%float) in
  let st' := fst (handle integer_engine e (PostCreditsGenerate body) approved_store) in
  exists cert,
    credit_certificate "https" (Some "ccred.example") "CRD-0e0e0e0e" st' = Found 200 cert
    /\ cert_serialNumber cert = "PRJ-0a0a0a0a-2024-1700000000400"
    /\ cert_projectName cert = VStr "Coastal Mangrove Restoration"
    /\ cert_certificateUrl cert = "https://ccred.example/certificates/CRD-0e0e0e0e.pdf".
Proof.
  intros e body st'.
  destruct (snd (handle integer_engine e (PostCreditsGenerate body) approved_store))
    as [code [| | | |credit| | |]|] eqn:Hr; try (vm_compute in Hr; discriminate).
  assert (code = 201) as -> by (vm_compute in Hr; congruence).
  destruct (certificate_of_issued_credit integer_engine e "https" (Some "ccred.example")
              body approved_store credit Hr)
    as (cert & project & Hcert & Hproject & _ & Hserial & _ & _ & _ & _ & Hname & Hurl).
  - vm_compute. intros Hin. by apply elem_of_nil in Hin.
  - subst st'. exists cert. split; [exact Hcert|].
    assert (Credit.serialNumber credit = "PRJ-0a0a0a0a-2024-1700000000400") as Hs
      by (vm_compute in Hr; by injection Hr as <-).
    assert (field project "name" = VStr "Coastal Mangrove Restoration") as Hn.
    { apply (f_equal (fun o => match o with
                               | Some p => field p "name"
                               | None => VUndefined
                               end)) in Hproject.
      etransitivity; [symmetry; exact Hproject|]. vm_compute. reflexivity. }
    split; [by rewrite Hserial|]. split; [by rewrite Hname, Hn|]. exact Hurl.
Defined.

(* ===================================================================== *)
(** ** History, validation and stakeholders *)
(* ===================================================================== *)

Section Reading.
Variable E : engine.

(** X26. A submission is out of the verification history while it is
    pending and in it after a review decision: submitting an upload leaves
    the history as it was, and after approving, rejecting or asking more
    data for an existing submission the history (with no project filter)
    holds the submission, as the lookup by its id now returns it. *)
Theorem history_after_review (e : env) (id : string) (body query : obj) (st : store) :
  verification_history query (fst (handle E e (PostVerify id) st))
  = verification_history query st
  /\ (VStr id ∈ ids_of VerificationSubmission st ->
      truthy (field query "projectId") = false ->
      forall r,
        r = PostApprove id body \/ r = PostReject id body \/ r = PostRequestMore id body ->
        exists hist s,
          verification_history query (fst (handle E e r st)) = Found 200 (listing_of hist)
          /\ s ∈ hist
          /\ Submission.id s = id
          /\ findById (verificationSubmissions (fst (handle E e r st))) (VStr id) = Some s).
Proof.
  split.
  - simpl. unfold verify_upload.
    destruct (findIndex (dataUploads st) (VStr id)) as [[i upload]|]; [|reflexivity].
    unfold verification_history. simpl. by rewrite filter_app, app_nil_r.
  - intros Hin Hquery r Hr.
    assert (exists f,
              (forall old, Submission.status (f old) <> "pending"
                           /\ Submission.id (f old) = Submission.id old)
              /\ handle E e r st
                 = match findIndex (verificationSubmissions st) (VStr id) with
                   | None => (st, Failure 404 "Submission not found")
                   | Some (i, old) =>
                       (with_verificationSubmissions
                          (<[i := f old]> (verificationSubmissions st)) st,
                        Success 200 (PSubmission (f old)))
                   end) as (f & Hf & ->).
    { destruct Hr as [-> | [-> | ->]];
        [exists (approved e body) | exists (rejected e body)
        | exists (more_requested e body)];
        (split; [intros old; by split | reflexivity]). }
    apply present_findIndex in Hin as (i & old & Hfind). rewrite Hfind.
    assert (findById (<[i := f old]> (verificationSubmissions st)) (VStr id)
            = Some (f old)) as Hnew.
    { eapply findById_insert_found; [exact Hfind|].
      apply findIndex_Some in Hfind as (_ & Hid & _).
      unfold item_id, submission_id in *. by rewrite (proj2 (Hf old)). }
    unfold verification_history. simpl. rewrite Hquery.
    eexists. exists (f old). split; [reflexivity|].
    apply findIndex_Some in Hfind as (Hi & Hid & _). apply strict_eq_str in Hid.
    injection Hid as Hid.
    split; [|split; [by rewrite (proj2 (Hf old)) | exact Hnew]].
    apply list_elem_of_filter. split.
    + apply negb_true_iff, String.eqb_neq, Hf.
    + eapply list_elem_of_lookup_2, list_lookup_insert_eq. by eapply lookup_lt_Some.
Qed.

(** X27. The validator refuses a request without dataType with the 400.
    Otherwise it answers 200 with a verdict that is valid exactly when the
    error list is empty, that is when the dataType is one of the seven
    supported strings and the metadata, if given, has a truthy
    collectionDate and location. *)
Theorem validate_verdict (body : obj) :
  (truthy (field body "dataType") = false ->
   data_validate body = Refused 400 "Data type is required")
  /\ (truthy (field body "dataType") = true ->
      exists verdict,
        data_validate body = Found 200 verdict
        /\ (valid verdict = true <-> errors verdict = [])
        /\ (valid verdict = true <->
            (exists s, field body "dataType" = VStr s /\ s ∈ supportedDataTypes)
            /\ (truthy (field body "metadata") = true ->
                truthy (property (field body "metadata") "collectionDate") = true
                /\ truthy (property (field body "metadata") "location") = true))).
Proof.
  unfold data_validate. split; [by intros ->|]. intros ->. simpl.
  eexists. split; [reflexivity|]. simpl.
  assert (isValidType (field body "dataType") = true <->
          exists s, field body "dataType" = VStr s /\ s ∈ supportedDataTypes) as Htype.
  { unfold isValidType. destruct (field body "dataType") as [| | | |s| |];
      try (split; [done | by intros (? & [=] & _)]).
    rewrite bool_decide_eq_true. split; [eauto | by intros (? & [= <-] & ?)]. }
  rewrite bool_decide_eq_true. split.
  - split; [by intros ?%nil_length_inv | by intros ->].
  - destruct (isValidType (field body "dataType")),
             (truthy (field body "metadata")),
             (truthy (property (field body "metadata") "collectionDate")),
             (truthy (property (field body "metadata") "location"));
      simpl; split; try done; try (intros [? ?]; intuition congruence);
      try (intros _; split; [by apply Htype | done]);
      try (intros [Hs _]; apply Htype in Hs; done).
Qed.

(** X28. The two routes that take metadata disagree on its form.
    Metadata given as a non-empty string, which the upload route parses,
    always fails validation with both metadata errors; metadata given as
    an object, which the validator reads, makes the upload route answer
    500 on any engine whose [JSON.parse] rejects the text
    "[object Object]". *)
Theorem metadata_forms_disagree (e : env) (body : obj)
    (req_files : option (list multer_file)) (st : store) :
  truthy (field body "dataType") = true ->
  (forall s, field body "metadata" = VStr s -> s <> "" ->
     exists verdict,
       data_validate body = Found 200 verdict
       /\ valid verdict = false
       /\ "Collection date is required" ∈ errors verdict
       /\ "Location is required" ∈ errors verdict)
  /\ (forall o, field body "metadata" = VObj o ->
        json_parse E "[object Object]" = None ->
        truthy (field body "projectId") = true ->
        is_Some (findById (projects st) (field body "projectId")) ->
        handle E e (PostDataUpload body req_files) st
        = (st, Failure 500 "Internal server error")).
Proof.
  intros Htype. split.
  - intros s Hs Hne. unfold data_validate. rewrite Htype, Hs. simpl.
    assert (negb (String.eqb s "") = true) as ->
      by (apply negb_true_iff, String.eqb_neq, Hne).
    eexists. split; [reflexivity|]. simpl. split.
    + apply bool_decide_eq_false. destruct (isValidType _); simpl; lia.
    + split; apply elem_of_app; right; [left | right; left].
  - intros o Ho Hparse Hp [project Hproject]. simpl. unfold post_data_upload.
    rewrite Hp, Htype, Hproject, Ho. simpl. by rewrite Hparse.
Qed.

(** X29. The projects of a stakeholder.  With no such stakeholder the
    reply is the 404.  With an array in the stakeholder's [projects] the
    data is the projects whose id occurs in the array, in store order.
    With anything there that is neither an array nor a string (a PUT can
    store it) the request ends in the 500 as soon as one project exists,
    and still answers an empty list when none does. *)
Theorem stakeholder_projects_cases (id : string) (st : store) :
  (VStr id ∉ ids_of Stakeholder st ->
   stakeholder_projects E id st = Refused 404 "Stakeholder not found")
  /\ (forall stakeholder,
        findById (stakeholders st) (VStr id) = Some stakeholder ->
        (forall xs,
           field stakeholder "projects" = VArr xs ->
           stakeholder_projects E id st
           = Found 200
               (listing_of
                  (filter (fun p => existsb (fun y => same_value_zero y (field p "id")) xs
                                    = true)
                          (projects st))))
        /\ (forall v,
              field stakeholder "projects" = v ->
              (forall xs, v <> VArr xs) -> (forall s, v <> VStr s) ->
              stakeholder_projects E id st
              = match projects st with
                | [] => Found 200 (listing_of [])
                | _ :: _ => Refused 500 "Internal server error"
                end)).
Proof.
  unfold stakeholder_projects. split.
  - intros Hnot. apply absent_findIndex, findById_None in Hnot. by rewrite Hnot.
  - intros stakeholder ->. split.
    + intros xs ->.
      assert (filter_includes E (VArr xs) (projects st)
              = Some (filter (fun p => existsb (fun y => same_value_zero y (field p "id")) xs
                                       = true)
                             (projects st))) as ->; [|reflexivity].
      induction (projects st) as [|p ps IH]; [reflexivity|].
      simpl. rewrite IH, filter_cons.
      destruct (existsb _ xs); by rewrite ?decide_True, ?decide_False by done.
    + intros v -> Harr Hstr.
      destruct (projects st) as [|p ps]; [reflexivity|]. simpl.
      destruct v; try reflexivity; [by destruct (Hstr s) | by destruct (Harr xs)].
Qed.

(** X30. PUT /stakeholders/:id answers the 404 when no stakeholder
    carries the id.  Otherwise it replaces the first such stakeholder, at
    its index, by the merge of the stakeholder and the request body: the
    body's properties override the stored ones, the others are kept, and
    updatedAt is set by the server. *)
Theorem put_stakeholder_merges (e : env) (id : string) (body : obj) (st : store) :
  (VStr id ∉ ids_of Stakeholder st ->
   handle E e (PutStakeholder id body) st = (st, Failure 404 "Stakeholder not found"))
  /\ (VStr id ∈ ids_of Stakeholder st ->
      exists i old new,
        stakeholders st !! i = Some old
        /\ field old "id" = VStr id
        /\ handle E e (PutStakeholder id body) st
           = (with_stakeholders (<[i := new]> (stakeholders st)) st,
              Success 200 (PObject new))
        /\ field new "updatedAt" = VStr (isoString e 0)
        /\ (forall k, k <> "updatedAt" ->
              field new k = match body !! k with
                            | Some v => v
                            | None => field old k
                            end)).
Proof.
  simpl. unfold put_stakeholder. split.
  - intros Hnot. by rewrite (absent_findIndex _ _ Hnot).
  - intros Hin. apply present_findIndex in Hin as (i & old & Hfind). rewrite Hfind.
    apply findIndex_Some in Hfind as (Hi & Hid & _). apply strict_eq_str in Hid.
    exists i, old. eexists. split; [exact Hi|]. split; [exact Hid|].
    split; [reflexivity|]. split.
    + unfold field. by rewrite lookup_insert_eq.
    + intros k Hk. unfold field, spread. rewrite lookup_insert_ne by done.
      destruct (body !! k) as [v|] eqn:Hbody.
      * by rewrite (lookup_union_Some_l _ _ _ _ Hbody).
      * by rewrite lookup_union_r.
Qed.
End Reading.

(* ===================================================================== *)
(** ** The further theorems at work on the scenario *)
(* ===================================================================== *)

(** The submission of [submitted_store] through its approval. *)
Lemma submissions_never_lost_witness :
  exists s s',
    verificationSubmissions submitted_store !! 0 = Some s
    /\ verificationSubmissions
         (run integer_engine [(later, PostApprove "SUB-0c0c0c0c" approval)] submitted_store)
       !! 0 = Some s'
    /\ reviewed_of s s'.
Proof.
  destruct (verificationSubmissions submitted_store !! 0) as [s|] eqn:Hs;
    [|vm_compute in Hs; discriminate].
  destruct (submissions_never_lost integer_engine
              [(later, PostApprove "SUB-0c0c0c0c" approval)] submitted_store 0 s Hs)
    as (s' & Hs' & Hrev).
  by exists s, s'.
Defined.

(** The approved submission of [approved_store] is rejected. *)
Lemma reject_unconditional_witness :
  exists new,
    snd (handle integer_engine later (PostReject "SUB-0c0c0c0c" rejection) approved_store)
    = Success 200 (PSubmission new)
    /\ Submission.status new = "rejected"
    /\ Submission.reason new = VStr "Imagery does not cover the whole site"
    /\ Submission.creditsGenerated new = VNum 1000%float.
Proof.
  destruct (proj2 (proj2 (reject_unconditional integer_engine later "SUB-0c0c0c0c"
                            rejection approved_store)))
    as (i & old & new & _ & _ & Hold & Hr & _ & Hstatus & Hreason & _ & _ & _ & Hcg & _).
  - vm_compute. apply list_elem_of_singleton. reflexivity.
  - exists new. split; [exact Hr|]. split; [exact Hstatus|]. split; [exact Hreason|].
    rewrite Hcg. vm_compute in Hold. by injection Hold as <-.
Defined.

(** More data is asked for the submission of [submitted_store]. *)
Lemma request_more_unconditional_witness :
  exists new,
    snd (handle integer_engine later (PostRequestMore "SUB-0c0c0c0c" ∅) submitted_store)
    = Success 200 (PSubmission new)
    /\ Submission.status new = "more_data_requested"
    /\ Submission.requestedData new = VArr [].
Proof.
  destruct (proj2 (proj2 (request_more_unconditional integer_engine later "SUB-0c0c0c0c"
                            ∅ submitted_store)))
    as (i & old & new & _ & _ & _ & Hr & _ & Hstatus & Hdata & _).
  - vm_compute. apply list_elem_of_singleton. reflexivity.
  - exists new. split; [exact Hr|]. split; [exact Hstatus|]. exact Hdata.
Defined.

(** The mangrove project is registered in the empty store and found. *)
Lemma project_created_then_found_witness :
  let e := host "0a0a0a0a-1111-4111-8111-111111111111" 1700000000000%float in
  exists project,
    get_project "PRJ-0a0a0a0a" (fst (handle integer_engine e (PostProjects mangrove_project)
                                       empty_store))
    = Found 200 project
    /\ field project "name" = VStr "Coastal Mangrove Restoration"
    /\ field project "status" = VStr "active".
Proof.
  intros e.
  destruct (proj2 (project_created_then_found integer_engine e mangrove_project empty_store))
    as (project & _ & _ & Hstatus & Hname & _ & _ & _ & Hget); try reflexivity.
  exists project. split; [|split; [by rewrite Hname | exact Hstatus]].
  apply Hget. intros Hin. by apply elem_of_nil in Hin.
Defined.

(** The project of [approved_store] is renamed and given another id. *)
Lemma put_project_merges_witness :
  exists new,
    snd (handle integer_engine later (PutProject "PRJ-0a0a0a0a" renaming) approved_store)
    = Success 200 (PObject new)
    /\ field new "id" = VStr "PRJ-renamed"
    /\ field new "name" = VStr "Krishna Delta Mangroves"
    /\ field new "category" = VStr "wetland_restoration".
Proof.
  destruct (proj2 (put_project_merges integer_engine later "PRJ-0a0a0a0a" renaming
                     approved_store))
    as (i & old & new & Hold & _ & Hout & _ & Hkeys).
  - vm_compute. apply list_elem_of_singleton. reflexivity.
  - exists new. split; [by rewrite Hout|].
    assert (i = 0) as ->.
    { apply lookup_lt_Some in Hold. vm_compute in Hold. lia. }
    assert (field old "category" = VStr "wetland_restoration") as Hcategory.
    { apply (f_equal (fun o => match o with
                               | Some p => field p "category"
                               | None => VUndefined
                               end)) in Hold.
      etransitivity; [symmetry; exact Hold|]. vm_compute. reflexivity. }
    split; [rewrite (Hkeys "id") by discriminate; vm_compute; reflexivity|].
    split; [rewrite (Hkeys "name") by discriminate; vm_compute; reflexivity|].
    rewrite (Hkeys "category") by discriminate.
    replace (renaming !! "category") with (@None value) by (vm_compute; reflexivity).
    exact Hcategory.
Defined.

(** The upload of [approved_store] is deleted; its submission stays. *)
Lemma delete_upload_existing_witness :
  let st' := fst (handle integer_engine later (DeleteUpload "UPL-0b0b0b0b") approved_store) in
  record_count DataUpload st' = 0
  /\ verificationSubmissions st' = verificationSubmissions approved_store.
Proof.
  intros st'.
  destruct (delete_upload_existing integer_engine later "UPL-0b0b0b0b" approved_store)
    as (i & upload & _ & _ & _ & _ & Hcount & Hsubs & _).
  - vm_compute. apply list_elem_of_singleton. reflexivity.
  - fold st' in Hcount, Hsubs. split; [|exact Hsubs].
    assert (record_count DataUpload approved_store = 1) as Hone by reflexivity. lia.
Defined.


(** The listing of [unpriced_store] has the price NaN. *)
Lemma nan_price_spoils_stats_witness :
  minPrice (priceStats unpriced_store) = nan
  /\ maxPrice (priceStats unpriced_store) = nan
  /\ PrimFloat.is_nan (averagePrice (priceStats unpriced_store)) = true.
Proof.
  apply (nan_price_spoils_stats unpriced_store).
  vm_compute. left. reflexivity.
Defined.

(** The price "abc" is accepted for the credit of [issued_store]. *)
Lemma unreadable_price_listed_witness :
  let st' := fst (handle integer_engine later
                    (PostListCredit "CRD-0e0e0e0e" (offer (VStr "abc"))) issued_store) in
  is_success (snd (handle integer_engine later
                     (PostListCredit "CRD-0e0e0e0e" (offer (VStr "abc"))) issued_store))
  = true
  /\ minPrice (priceStats st') = nan.
Proof.
  intros st'.
  destruct (unreadable_price_listed integer_engine later "CRD-0e0e0e0e"
              (offer (VStr "abc")) issued_store) as (Hok & _ & Hmin & _).
  - vm_compute. apply list_elem_of_singleton. reflexivity.
  - reflexivity.
  - reflexivity.
  - reflexivity.
  - by split.
Defined.

(** A minPrice of "cheap" returns nothing from [listed_store]. *)
Lemma browse_unreadable_bound_witness :
  handle integer_engine later
    (GetMarketplaceCredits (list_to_map [("minPrice", VStr "cheap")])) listed_store
  = (listed_store, Success 200 (PListings [] 0)).
Proof.
  apply (browse_unreadable_bound integer_engine later
           (list_to_map [("minPrice", VStr "cheap")]) listed_store).
  left. split; reflexivity.
Defined.

(** The credit of [issued_store], listed at 5 and again at 15. *)
Lemma credit_listed_twice_witness :
  let st1 := fst (handle integer_engine later
                    (PostListCredit "CRD-0e0e0e0e" (offer (VNum 5%float))) issued_store) in
  let st2 := fst (handle integer_engine later
                    (PostListCredit "CRD-0e0e0e0e" (offer (VNum 15%float))) st1) in
  exists l1 l2,
    marketplaceListings st2 = [l1; l2]
    /\ Listing.availableQuantity l1 = VNum 1000%float
    /\ Listing.availableQuantity l2 = VNum 1000%float.
Proof.
  intros st1 st2.
  destruct (findById (carbonCredits issued_store) (VStr "CRD-0e0e0e0e")) as [credit|] eqn:Hc;
    [|vm_compute in Hc; discriminate].
  destruct (credit_listed_twice integer_engine later later "CRD-0e0e0e0e"
              (offer (VNum 5%float)) (offer (VNum 15%float)) 5%float 15%float
              issued_store credit Hc)
    as (l1 & l2 & Hls & _ & _ & _ & _ & Hq1 & Hq2); try reflexivity.
  exists l1, l2. subst st1 st2. split; [exact Hls|].
  assert (Credit.creditsAmount credit = VNum 1000%float) as Hamount
    by (vm_compute in Hc; by injection Hc as <-).
  by rewrite Hq1, Hq2.
Defined.

(** Submitting the upload of [uploaded_store] adds nothing to the history;
    approving its submission does. *)
Lemma history_after_review_witness :
  verification_history ∅ submitted_store = verification_history ∅ uploaded_store
  /\ exists hist s,
       verification_history ∅ approved_store = Found 200 (listing_of hist)
       /\ s ∈ hist /\ Submission.id s = "SUB-0c0c0c0c".
Proof.
  split.
  - exact (proj1 (history_after_review integer_engine
                    (host "0c0c0c0c-3333-4333-8333-333333333333" 1700000000200%float)
                    "UPL-0b0b0b0b" ∅ ∅ uploaded_store)).
  - destruct (proj2 (history_after_review integer_engine
                       (host "0d0d0d0d-4444-4444-8444-444444444444" 1700000000300%float)
                       "SUB-0c0c0c0c" approval ∅ submitted_store))
      with (r := PostApprove "SUB-0c0c0c0c" approval)
      as (hist & s & Hhist & Hs & Hid & _).
    + vm_compute. apply list_elem_of_singleton. reflexivity.
    + reflexivity.
    + by left.
    + by exists hist, s.
Defined.

(** A field survey with a collection date and a location is valid. *)
Lemma validate_verdict_witness :
  exists verdict,
    data_validate survey_check = Found 200 verdict
    /\ valid verdict = true /\ errors verdict = [].
Proof.
  destruct (proj2 (validate_verdict survey_check)) as (verdict & Hv & Herr & Hvalid);
    [reflexivity|].
  exists verdict. split; [exact Hv|].
  assert (valid verdict = true) as Hok.
  { apply Hvalid. split.
    - exists "field_survey". split; [reflexivity|]. left.
    - intros _. split; reflexivity. }
  split; [exact Hok | by apply Herr].
Defined.

(** Metadata as the text "{}" fails validation; metadata as an object
    fails the upload. *)
Lemma metadata_forms_disagree_witness :
  (exists verdict,
     data_validate (upload_with (VStr "{}")) = Found 200 verdict /\ valid verdict = false)
  /\ handle integer_engine later (PostDataUpload (upload_with (VObj ∅)) None) approved_store
     = (approved_store, Failure 500 "Internal server error").
Proof.
  split.
  - destruct (proj1 (metadata_forms_disagree integer_engine later (upload_with (VStr "{}"))
                       None approved_store eq_refl) "{}")
      as (verdict & Hv & Hinvalid & _); [reflexivity | discriminate |].
    by exists verdict.
  - apply (proj2 (metadata_forms_disagree integer_engine later (upload_with (VObj ∅))
                    None approved_store eq_refl) ∅); try reflexivity.
    eexists. vm_compute. reflexivity.
Defined.

(** The developer of [staffed_store] takes part in its one project. *)
Lemma stakeholder_projects_cases_witness :
  exists found,
    stakeholder_projects integer_engine "STK-1d1d1d1d" staffed_store = Found 200 found
    /\ total found = 1.
Proof.
  assert (exists stakeholder,
            findById (stakeholders staffed_store) (VStr "STK-1d1d1d1d") = Some stakeholder
            /\ field stakeholder "projects" = VArr [VStr "PRJ-0a0a0a0a"])
    as (stakeholder & Hs & Hprojects).
  { eexists. split; vm_compute; reflexivity. }
  destruct (proj2 (stakeholder_projects_cases integer_engine "STK-1d1d1d1d" staffed_store)
              stakeholder Hs) as [Harray _].
  eexists. split.
  - exact (Harray [VStr "PRJ-0a0a0a0a"] Hprojects).
  - vm_compute. reflexivity.
Defined.

(** The developer of [staffed_store] is renamed. *)
Lemma put_stakeholder_merges_witness :
  exists new,
    snd (handle integer_engine later (PutStakeholder "STK-1d1d1d1d" renaming) staffed_store)
    = Success 200 (PObject new)
    /\ field new "name" = VStr "Krishna Delta Mangroves".
Proof.
  destruct (proj2 (put_stakeholder_merges integer_engine later "STK-1d1d1d1d" renaming
                     staffed_store))
    as (i & old & new & _ & _ & Hout & _ & Hkeys).
  - vm_compute. apply list_elem_of_singleton. reflexivity.
  - exists new. split; [by rewrite Hout|]. by rewrite (Hkeys "name").
Defined.

(* ===================================================================== *)
(** ** A price that is no number *)
(* ===================================================================== *)

(** C7. A listing request whose price is the string "abc" is not refused,
    although "abc" is not greater than 0.  On every engine that reads no
    number from "abc", and for the credit the store holds after the
    scenario, [!price] is false and [price <= 0] is false, so the reply is
    the 201 and a listing is appended with status "active", the credit's
    whole amount and the price NaN, where the claim wants the 400 "Valid
    price is required". *)
Theorem non_numeric_price_accepted (E : engine) (e : env) :
  PrimFloat.is_nan (string_to_number E "abc") = true ->
  PrimFloat.is_nan (parse_float E "abc") = true ->
  let st := run E issued_trace empty_store in
  let body := offer (VStr "abc") in
  reachable E st
  /\ VStr "CRD-0e0e0e0e" ∈ ids_of CarbonCredit st
  /\ PrimFloat.ltb 0%float (to_number E (field body "price")) = false
  /\ exists listing,
       handle E e (PostListCredit "CRD-0e0e0e0e" body) st
       = (with_marketplaceListings (marketplaceListings st ++ [listing]) st,
          Success 201 (PListing listing))
       /\ Listing.creditId listing = "CRD-0e0e0e0e"
       /\ Listing.status listing = "active"
       /\ Listing.availableQuantity listing = VNum 1000%float
       /\ PrimFloat.is_nan (Listing.price listing) = true.
Proof.
  intros Hnumber Hparse st body.
  assert (reachable E st) as Hreach by (by exists issued_trace).
  assert (VStr "CRD-0e0e0e0e" ∈ ids_of CarbonCredit st) as Hin
    by (vm_compute; apply list_elem_of_singleton; reflexivity).
  destruct (findById (carbonCredits st) (VStr "CRD-0e0e0e0e")) as [credit|] eqn:Hcredit;
    [|vm_compute in Hcredit; discriminate].
  assert (Credit.id credit = "CRD-0e0e0e0e"
          /\ Credit.creditsAmount credit = VNum 1000%float) as [Hid Hamount]
    by (vm_compute in Hcredit; injection Hcredit as <-; by split).
  assert (field body "price" = VStr "abc") as Hprice by reflexivity.
  clearbody st body.
  split; [exact Hreach|]. split; [exact Hin|]. split.
  { rewrite Hprice. simpl to_number. rewrite FloatAxioms.ltb_spec.
    apply is_nan_spec in Hnumber. rewrite Hnumber.
    change (Prim2SF 0%float) with (S754_zero false). reflexivity. }
  cbn [handle]. unfold list_credit. rewrite Hcredit, Hprice.
  unfold js_le. simpl to_number. rewrite (leb_nan_l _ _ Hnumber).
  cbn [truthy negb orb String.eqb].
  eexists. split; [reflexivity|]. cbn [Listing.creditId Listing.status
    Listing.availableQuantity Listing.price].
  split; [exact Hid|]. split; [reflexivity|]. split; [exact Hamount|].
  exact Hparse.
Qed.

(** The example engine reads no number from "abc". *)
Lemma non_numeric_price_accepted_witness :
  let st := run integer_engine issued_trace empty_store in
  exists listing,
    handle integer_engine later (PostListCredit "CRD-0e0e0e0e" (offer (VStr "abc"))) st
    = (with_marketplaceListings (marketplaceListings st ++ [listing]) st,
       Success 201 (PListing listing))
    /\ Listing.status listing = "active"
    /\ PrimFloat.is_nan (Listing.price listing) = true.
Proof.
  intros st.
  destruct (non_numeric_price_accepted integer_engine later eq_refl eq_refl)
    as (_ & _ & _ & listing & Hout & _ & Hstatus & _ & Hnan).
  exists listing. split; [exact Hout|]. split; [exact Hstatus | exact Hnan].
Defined.
